(** * asyncpg._testbase: the asynchronous test harness

    A shallow embedding of [asyncpg/_testbase/__init__.py]: the test-case
    metaclass that wraps coroutine test methods, the deadline wrapper, the
    loop-scoped assertion helpers, the default-cluster provider and the
    cluster- and proxy-backed test cases.

    Conventions of the embedding
    - Python objects that the module only passes around are values of small
      inductive types; objects with identity (clusters, dicts handed out by
      the cluster, loops, handlers) are references (numbers) into a store.
    - Wall-clock and monotonic time are rationals ([Q]); a float reading is
      a rational, and the module only subtracts and compares readings.
    - A call that may raise returns an [outcome]; exceptions carry their
      class, message, [__cause__], [__context__] and
      [__suppress_context__].
    - Calls into collaborators (the cluster, the proxy, the event loop) are
      recorded as events of a trace, in program order. *)

From Stdlib Require Import QArith Qround.
From stdpp Require Import gmap strings list fin_maps pretty.
From Stdlib Require Import String.

Local Open Scope string_scope.
Local Open Scope list_scope.

(* ===================================================================== *)
(** * Part I: the embedding                                               *)
(* ===================================================================== *)

(** ** Python values *)

(** The plain values the module handles: timeouts, connection parameters,
    fields of an exception-handler context. *)
Inductive pyval :=
| PyNone
| PyInt (z : Z)
| PyFloat (q : Q)
| PyStr (s : string).

(** [bool(v)]: [None], zero and the empty string are falsy. *)
Definition truthy (v : pyval) : bool :=
  match v with
  | PyNone => false
  | PyInt z => negb (z =? 0)%Z
  | PyFloat q => negb (Qeq_bool q 0)
  | PyStr s => negb (String.eqb s "")
  end.

(** The number of seconds a value denotes where a delay is expected
    ([loop.call_later] adds it to the loop time); [None] stands for the
    [TypeError] of the addition. *)
Definition seconds (v : pyval) : option Q :=
  match v with
  | PyInt z => Some (inject_Z z)
  | PyFloat q => Some q
  | PyNone | PyStr _ => None
  end.

(** ** Exceptions and outcomes *)

Inductive exc_class :=
| AsyncioTimeoutError
| AssertionError
| TypeError
| RuntimeError
| ValueError
| UserError (name : string).

#[warnings="-register-all"] Inductive exn := Exn {
  exc_type : exc_class;
  exc_msg : string;
  exc_cause : option exn;          (* __cause__ *)
  exc_context : option exn;        (* __context__ *)
  exc_suppress_context : bool      (* __suppress_context__ *)
}.

Definition exc_class_eqb (a b : exc_class) : bool :=
  match a, b with
  | AsyncioTimeoutError, AsyncioTimeoutError => true
  | AssertionError, AssertionError => true
  | TypeError, TypeError => true
  | RuntimeError, RuntimeError => true
  | ValueError, ValueError => true
  | UserError n, UserError m => String.eqb n m
  | _, _ => false
  end.

(** [Cls(msg)]: a fresh exception object. *)
Definition new_exn (c : exc_class) (msg : string) : exn :=
  {| exc_type := c; exc_msg := msg; exc_cause := None;
     exc_context := None; exc_suppress_context := false |}.

(** [isinstance(e, asyncio.TimeoutError)]. *)
Definition is_timeout (e : exn) : bool :=
  exc_class_eqb (exc_type e) AsyncioTimeoutError.

Inductive outcome (A : Type) :=
| Returns (a : A)
| Raises (e : exn).
Arguments Returns {A} a.
Arguments Raises {A} e.

(** Raising [e] while [handled] is being handled sets [e.__context__]. *)
Definition raise_during (handled : option exn) (e : exn) : exn :=
  match handled with
  | None => e
  | Some h =>
      {| exc_type := exc_type e; exc_msg := exc_msg e;
         exc_cause := exc_cause e; exc_context := Some h;
         exc_suppress_context := exc_suppress_context e |}
  end.

(** [raise e from None] inside a handler of [handled]: the cause is
    [None] and the context, though recorded, is suppressed. *)
Definition raise_from_None (handled : option exn) (e : exn) : exn :=
  {| exc_type := exc_type e; exc_msg := exc_msg e;
     exc_cause := None; exc_context := handled;
     exc_suppress_context := true |}.

Definition raised {A} (o : outcome A) : option exn :=
  match o with
  | Returns _ => None
  | Raises e => Some e
  end.

(** [try: body finally: fin], given the outcome of the body and of the
    [finally] suite: an exception of the [finally] suite replaces whatever
    the body did, and has the body's exception as its context. *)
Definition try_finally {A} (body : outcome A) (fin : outcome unit) : outcome A :=
  match fin with
  | Raises e => Raises (raise_during (raised body) e)
  | Returns _ => body
  end.

(** ** Formatting and regular expressions

    [str.format] on numbers and [re.search] belong to the Python runtime;
    the harness is parametric in them. *)
Class PyRuntime := {
  (** ['{}'.format(v)] *)
  format_str : pyval -> string;
  (** ['{:0.3f}'.format(q)] *)
  format_3f : Q -> string;
  (** ['{!r}'.format(s)] *)
  format_repr : string -> string;
  (** [re.search(pattern, s) is not None] *)
  re_search : string -> string -> bool;
  (** whether [asyncio.wait_for] reports a timeout for a computation that
      would complete at the very instant the deadline falls *)
  deadline_tie_times_out : bool
}.

(** ** Functions, coroutine functions and wrappers *)

(** An [async def] function object: its [__qualname__], its [__timeout__]
    attribute when [with_timeout] has set one, and what awaiting a coroutine
    it creates does: how long it runs and how it ends. *)
Record corofn := CoroFn {
  co_name : string;
  co_timeout : option pyval;
  co_duration : Q;
  co_result : outcome pyval
}.

(** [with_timeout(timeout)(func)]: sets [func.__timeout__]. *)
Definition with_timeout (timeout : pyval) (func : corofn) : corofn :=
  {| co_name := co_name func; co_timeout := Some timeout;
     co_duration := co_duration func; co_result := co_result func |}.

(** What a class attribute or a namespace entry can hold. [ObjWrapper m] is
    the closure [wrapper] that [TestCaseMeta.__new__] creates with
    [__meth__ = m]. *)
Inductive pyobj :=
| ObjCoro (f : corofn)
| ObjFunc (name : string)
| ObjWrapper (meth : pyobj)
| ObjValue (v : pyval).

(** [inspect.iscoroutinefunction]: it looks at the code flags of the
    function itself, so the plain [def wrapper] is not one, whatever it
    wraps. *)
Definition iscoroutinefunction (o : pyobj) : bool :=
  match o with
  | ObjCoro _ => true
  | _ => false
  end.

(** [methname.startswith('test_')] *)
Definition startswith_test (methname : string) : bool :=
  String.prefix "test_" methname.

(** ** Dictionaries

    A [dict] keeps its entries in insertion order; assigning to a key that
    is present replaces the value in place, assigning to a new key appends
    an entry. *)
Abbreviation dict := (list (string * pyobj)).

Fixpoint dict_get (d : dict) (k : string) : option pyobj :=
  match d with
  | [] => None
  | (k', v) :: d' => if String.eqb k' k then Some v else dict_get d' k
  end.

Fixpoint dict_set (d : dict) (k : string) (v : pyobj) : dict :=
  match d with
  | [] => [(k, v)]
  | (k', v') :: d' =>
      if String.eqb k' k then (k', v) :: d' else (k', v') :: dict_set d' k v
  end.

Definition dict_keys (d : dict) : list string := d.*1.

(** ** TestCaseMeta *)

(** A base class as [_iter_methods] sees it: the pairs
    [(n, getattr(base, n))] for [n] in [dir(base)], in the order of
    [dir]. *)
Record pyclass := PyClass {
  cls_name : string;
  cls_attrs : list (string * pyobj)
}.

(** The body of the [for] loop of [__new__]: [ns[methname] = wrapper]. *)
Definition loop_body (methname : string) (meth : pyobj) (ns : dict) : dict :=
  dict_set ns methname (ObjWrapper meth).

(** [_iter_methods] is a generator, and [__new__] runs its loop body
    between two resumptions of it: the namespace that the second loop of
    the generator iterates is the namespace as the loop body has left it.
    The functions below run generator and loop body in that lock-step.

    First loop, over [dir(base)] of one base. *)
Fixpoint new_over_dir (attrs : list (string * pyobj)) (ns : dict) : dict :=
  match attrs with
  | [] => ns
  | (methname, meth) :: rest =>
      if negb (startswith_test methname) then new_over_dir rest ns
      else if negb (iscoroutinefunction meth) then new_over_dir rest ns
      else new_over_dir rest (loop_body methname meth ns)
  end.

(** First loop, over the bases. *)
Fixpoint new_over_bases (bases : list pyclass) (ns : dict) : dict :=
  match bases with
  | [] => ns
  | base :: rest => new_over_bases rest (new_over_dir (cls_attrs base) ns)
  end.

(** Second loop, [for methname, meth in ns.items()]: the iterator holds a
    position into the entries of the live dictionary; [n] bounds the
    entries still to visit. *)
Fixpoint new_over_ns (n : nat) (pos : nat) (ns : dict) : dict :=
  match n with
  | O => ns
  | S n' =>
      match ns !! pos with
      | None => ns
      | Some (methname, meth) =>
          if negb (startswith_test methname) then new_over_ns n' (S pos) ns
          else if negb (iscoroutinefunction meth) then new_over_ns n' (S pos) ns
          else new_over_ns n' (S pos) (loop_body methname meth ns)
      end
  end.

(** [TestCaseMeta.__new__(mcls, name, bases, ns)]: the namespace handed to
    [super().__new__], which becomes the [__dict__] of the class. *)
Definition TestCaseMeta_new (bases : list pyclass) (ns : dict) : dict :=
  let ns1 := new_over_bases bases ns in
  new_over_ns (List.length ns1) 0 ns1.

(** *** The generator, resumption by resumption

    The same construction with the generator made explicit: its state
    between two resumptions, what one resumption does given the namespace as
    it is then, and the [for] loop of [__new__] that resumes it and runs the
    loop body on what it yields. *)
Inductive gen_state :=
| GenBases (attrs : list (string * pyobj)) (rest : list pyclass)
    (* suspended in the first loop: what is left of [dir(base)], and the
       bases still to come *)
| GenNs (pos : nat) (size : nat).
    (* suspended in the second loop: the position of the iterator of
       [ns.items()], and the size of [ns] when the iterator was created *)

Inductive gen_step :=
| Yield (methname : string) (meth : pyobj) (g : gen_state)
| StopIteration
| GenRaises (e : exn).

(** Run the first loop on one [dir(base)] up to its next [yield]. *)
Fixpoint resume_dir (attrs : list (string * pyobj))
  : option ((string * pyobj) * list (string * pyobj)) :=
  match attrs with
  | [] => None
  | (methname, meth) :: rest =>
      if negb (startswith_test methname) then resume_dir rest
      else if negb (iscoroutinefunction meth) then resume_dir rest
      else Some ((methname, meth), rest)
  end.

Fixpoint resume_bases (attrs : list (string * pyobj)) (rest : list pyclass)
  : option ((string * pyobj) * gen_state) :=
  match resume_dir attrs with
  | Some (item, attrs') => Some (item, GenBases attrs' rest)
  | None =>
      match rest with
      | [] => None
      | base :: rest' => resume_bases (cls_attrs base) rest'
      end
  end.

(** Run the second loop up to its next [yield]; [n] bounds the entries
    that can be skipped. The iterator of a dictionary raises when the
    dictionary has changed size since the iterator was created. *)
Fixpoint resume_ns (n : nat) (pos size : nat) (ns : dict) : gen_step :=
  match n with
  | O => StopIteration
  | S n' =>
      if negb (List.length ns =? size)%nat
      then GenRaises (new_exn RuntimeError "dictionary changed size during iteration")
      else
        match ns !! pos with
        | None => StopIteration
        | Some (methname, meth) =>
            if negb (startswith_test methname) then resume_ns n' (S pos) size ns
            else if negb (iscoroutinefunction meth)
                 then resume_ns n' (S pos) size ns
                 else Yield methname meth (GenNs (S pos) size)
        end
  end.

(** [next(gen)], given the namespace as it is at that moment. *)
Definition gen_next (g : gen_state) (ns : dict) : gen_step :=
  match g with
  | GenBases attrs rest =>
      match resume_bases attrs rest with
      | Some ((methname, meth), g') => Yield methname meth g'
      | None => resume_ns (S (List.length ns)) 0 (List.length ns) ns
      end
  | GenNs pos size => resume_ns (S (List.length ns - pos)) pos size ns
  end.

(** [for methname, meth in gen: ns[methname] = wrapper]; [None] when the
    fuel runs out. *)
Fixpoint for_loop (fuel : nat) (g : gen_state) (ns : dict)
  : option (outcome dict) :=
  match fuel with
  | O => None
  | S fuel' =>
      match gen_next g ns with
      | StopIteration => Some (Returns ns)
      | GenRaises e => Some (Raises e)
      | Yield methname meth g' => for_loop fuel' g' (loop_body methname meth ns)
      end
  end.

(** [_iter_methods(bases, ns)]: the generator before its first
    resumption. *)
Definition _iter_methods (bases : list pyclass) : gen_state :=
  GenBases [] bases.

(** The number of resumptions that end in a [yield] in the first loop,
    and a fuel that is enough for the whole loop. *)
Fixpoint dir_yields (attrs : list (string * pyobj)) : nat :=
  match attrs with
  | [] => 0
  | (methname, meth) :: rest =>
      if startswith_test methname && iscoroutinefunction meth
      then S (dir_yields rest) else dir_yields rest
  end.

Fixpoint bases_yields (bases : list pyclass) : nat :=
  match bases with
  | [] => 0
  | base :: rest => dir_yields (cls_attrs base) + bases_yields rest
  end.

Definition enough_fuel (bases : list pyclass) (ns : dict) : nat :=
  bases_yields bases + S (List.length (new_over_bases bases ns)).

(** The coroutine test method that the first loop of [_iter_methods]
    yields last under the name [k], among the attributes of one base and
    among all bases. *)
Fixpoint dir_coro (attrs : list (string * pyobj)) (k : string) : option pyobj :=
  match attrs with
  | [] => None
  | (methname, meth) :: rest =>
      match dir_coro rest k with
      | Some m => Some m
      | None =>
          if startswith_test methname && iscoroutinefunction meth
             && String.eqb methname k
          then Some meth else None
      end
  end.

Fixpoint inherited_coro (bases : list pyclass) (k : string) : option pyobj :=
  match bases with
  | [] => None
  | base :: rest =>
      match inherited_coro rest k with
      | Some m => Some m
      | None => dir_coro (cls_attrs base) k
      end
  end.

(** What the second loop makes of one entry of the namespace. *)
Definition wrap_val (methname : string) (meth : pyobj) : pyobj :=
  if startswith_test methname && iscoroutinefunction meth
  then ObjWrapper meth else meth.

Definition wrap_entry (e : string * pyobj) : string * pyobj :=
  (e.1, wrap_val e.1 e.2).

(** [(k, m)] is a test method that [_iter_methods] is meant to collect:
    the name has the prefix, the value is a coroutine function, and it is
    an entry of the namespace or an attribute of a base. *)
Definition collected (bases : list pyclass) (ns : dict) (k : string) (m : pyobj) : Prop :=
  startswith_test k = true /\ iscoroutinefunction m = true /\
  (dict_get ns k = Some m \/
   exists base, base ∈ bases /\ (k, m) ∈ cls_attrs base).

(** Some base has a coroutine function under the name [k]. *)
Definition base_has_coro (bases : list pyclass) (k : string) : Prop :=
  exists base m, base ∈ bases /\ (k, m) ∈ cls_attrs base /\
                 iscoroutinefunction m = true.

(** ** The synchronous wrapper *)

Definition loop_id := nat.

(** A test-case instance: [self.loop] and [self.failureException]. *)
Record testcase := TestCaseObj {
  tc_loop : loop_id;
  tc_failureException : exc_class
}.

(** What is handed to [run_until_complete]: the coroutine
    [__meth__(self, *args)], possibly inside
    [asyncio.wait_for(coro, timeout, loop=loop)]. *)
Inductive awaitable :=
| AwCoro (f : corofn) (self : testcase) (args : list pyval)
| AwWaitFor (fut : awaitable) (timeout : pyval) (loop : loop_id).

(** [deadline_first d t]: a deadline [d] seconds away falls before a
    computation that needs [t] seconds completes. *)
Definition deadline_first `{PyRuntime} (d t : Q) : bool :=
  negb (Qle_bool t d) || (Qeq_bool t d && deadline_tie_times_out).

(** Running an awaitable to completion: the time it takes and how it
    ends. [wait_for] raises [asyncio.TimeoutError] when the deadline falls
    first, and otherwise ends as the inner computation does. *)
Fixpoint run_awaitable `{PyRuntime} (a : awaitable) : Q * outcome pyval :=
  match a with
  | AwCoro f _ _ => (co_duration f, co_result f)
  | AwWaitFor fut timeout _ =>
      match seconds timeout with
      | None => (0%Q, Raises (new_exn TypeError "unsupported operand type(s) for +"))
      | Some d =>
          let (t, r) := run_awaitable fut in
          if deadline_first d t
          then (d, Raises (new_exn AsyncioTimeoutError ""))
          else (t, r)
      end
  end.

(** [loop.run_until_complete(coro)] *)
Definition run_until_complete `{PyRuntime} (loop : loop_id) (coro : awaitable)
  : outcome pyval :=
  (run_awaitable coro).2.

(** [getattr(__meth__, '__timeout__', 60.0)] *)
Definition resolve_timeout (meth : corofn) : pyval :=
  match co_timeout meth with
  | Some t => t
  | None => PyFloat (60 # 1)
  end.

(** The exception that the wrapper raises in its [except] clause:
    [self.failureException('test timed out after {} seconds'.format(timeout))]
    [from None], while [e] is being handled. *)
Definition timed_out `{PyRuntime} (self : testcase) (timeout : pyval) (e : exn) : exn :=
  raise_from_None (Some e)
    (new_exn (tc_failureException self)
       ("test timed out after " ++ format_str timeout ++ " seconds")%string).

(** One call of [wrapper(self, *args)]: the loop it ran on, what it ran,
    and how the call ended. *)
Record wrapper_run := WrapperRun {
  run_loop : loop_id;
  run_coro : awaitable;
  run_outcome : outcome pyval
}.

Definition wrapper `{PyRuntime} (meth : corofn) (self : testcase)
    (args : list pyval) : wrapper_run :=
  let coro := AwCoro meth self args in
  let timeout := resolve_timeout meth in
  let coro := if truthy timeout
              then AwWaitFor coro timeout (tc_loop self) else coro in
  {| run_loop := tc_loop self;
     run_coro := coro;
     run_outcome :=
       match run_until_complete (tc_loop self) coro with
       | Returns _ => Returns PyNone
       | Raises e =>
           if is_timeout e
           then Raises (timed_out self timeout e)
           else Raises e
       end |}.




(** ** TestCase: the scoped assertion helpers *)

(** [with self.assertRunUnder(delta): block]. The helper is a generator
    under [contextlib.contextmanager]: the block runs at the [yield], inside
    [try], and the [finally] suite runs when the block returns and also,
    through [gen.throw], when the block raises; an exception raised by the
    [finally] suite leaves [__exit__] and replaces the exception of the
    block. [st] and [now] are the readings of [time.monotonic()] on entry
    and in the [finally] suite, [block] is how the block ended. *)
Definition assertRunUnder `{PyRuntime} (delta st now : Q) (block : outcome unit)
  : outcome unit :=
  let elapsed := (now - st)%Q in
  try_finally block
    (if negb (Qle_bool elapsed delta)
     then Raises (new_exn AssertionError
            ("running block took " ++ format_3f elapsed
               ++ "s which is longer than the expected maximum of "
               ++ format_3f delta ++ "s")%string)
     else Returns tt).

(** The context dictionaries that [loop.call_exception_handler] passes to
    the handler. *)
Abbreviation context := (gmap string pyval).

(** The exception handler of a loop: one installed by somebody else, or
    the local [handler] of [assertLoopErrorHandlerCalled], which appends
    to the local list [contexts]. *)
Inductive handler :=
| UserHandler (id : nat)
| CapturingHandler.

(** What a block does to the loop before it ends. *)
Inductive block_action :=
| CallExceptionHandler (ctx : context)
| SetExceptionHandler (h : option nat).

Record block := Block {
  blk_actions : list block_action;
  blk_outcome : outcome unit
}.

(** The installed handler and the list [contexts] while the block runs. *)
Fixpoint run_actions (acts : list block_action) (h : option handler)
    (contexts : list context) : option handler * list context :=
  match acts with
  | [] => (h, contexts)
  | CallExceptionHandler ctx :: rest =>
      match h with
      | Some CapturingHandler => run_actions rest h (contexts ++ [ctx])
      | _ => run_actions rest h contexts
      end
  | SetExceptionHandler h' :: rest =>
      run_actions rest (UserHandler <$> h') contexts
  end.

(** The contexts that a block passes to [loop.call_exception_handler]. *)
Fixpoint handler_calls (acts : list block_action) : list context :=
  match acts with
  | [] => []
  | CallExceptionHandler ctx :: rest => ctx :: handler_calls rest
  | SetExceptionHandler _ :: rest => handler_calls rest
  end.

(** The block installs no handler of its own. *)
Definition keeps_handler (acts : list block_action) : Prop :=
  forall h, SetExceptionHandler h ∉ acts.

(** [ctx.get('message')] *)
Definition ctx_get_message (ctx : context) : pyval :=
  match ctx !! "message" with
  | Some v => v
  | None => PyNone
  end.

(** The [for ctx in contexts] loop: [Returns true] stands for the
    [return] out of the loop, [Returns false] for falling through to the
    [raise AssertionError]. [re.search] raises [TypeError] on what is
    not text. *)
Fixpoint scan_contexts `{PyRuntime} (msg_re : string) (contexts : list context)
  : outcome bool :=
  match contexts with
  | [] => Returns false
  | ctx :: rest =>
      let msg := ctx_get_message ctx in
      if truthy msg then
        match msg with
        | PyStr s =>
            if re_search msg_re s then Returns true
            else scan_contexts msg_re rest
        | _ => Raises (new_exn TypeError "expected string or bytes-like object")
        end
      else scan_contexts msg_re rest
  end.

(** One use of [with self.assertLoopErrorHandlerCalled(msg_re): block]:
    the handler the loop is left with, the contexts captured, and how the
    statement ended. *)
Record handler_run := HandlerRun {
  hr_handler : option handler;
  hr_contexts : list context;
  hr_outcome : outcome unit
}.

Definition assertLoopErrorHandlerCalled `{PyRuntime} (msg_re : string)
    (installed : option handler) (blk : block) : handler_run :=
  let old_handler := installed in
  let '(_, contexts) := run_actions (blk_actions blk) (Some CapturingHandler) [] in
  let body :=
    match blk_outcome blk with
    | Raises e => Raises e
    | Returns _ =>
        match scan_contexts msg_re contexts with
        | Raises e => Raises e
        | Returns true => Returns tt
        | Returns false =>
            Raises (new_exn AssertionError
              ("no message matching " ++ format_repr msg_re
                 ++ " was logged with loop.call_exception_handler()")%string)
        end
    end in
  {| hr_handler := old_handler;     (* finally: set_exception_handler(old_handler) *)
     hr_contexts := contexts;
     hr_outcome := try_finally body (Returns tt) |}.

(** A captured context has a ['message'] that the pattern matches, and
    one that is moreover not empty. *)
Definition message_matches `{PyRuntime} (msg_re : string) (ctx : context) : Prop :=
  exists s, ctx !! "message" = Some (PyStr s) /\ re_search msg_re s = true.

Definition nonempty_message_matches `{PyRuntime} (msg_re : string) (ctx : context)
  : Prop :=
  exists s, ctx !! "message" = Some (PyStr s) /\ s <> "" /\
            re_search msg_re s = true.

(** The ['message'] of a context is text when there is one, as
    [loop.call_exception_handler] documents it. *)
Definition message_is_text (ctx : context) : Prop :=
  match ctx !! "message" with
  | Some (PyStr _) | Some PyNone | None => True
  | Some _ => False
  end.

(** The two kinds of test class that use the cluster. *)
Inductive test_kind :=
| ClusterTestCase
| ProxiedClusterTestCase.

(** ** The default cluster *)

Abbreviation settings := (gmap string string).

Inductive cluster_class :=
| TempCluster
| RunningCluster
| OtherCluster (name : string).

(** The calls into the cluster collaborator and into [atexit], with the
    cluster instance they concern. *)
Inductive cluster_event :=
| EvConstruct (cluster : nat) (cls : cluster_class) (kwargs : gmap string pyval)
| EvInit (cluster : nat)
| EvTrustLocalConnections (cluster : nat)
| EvStart (cluster : nat) (port : string) (server_settings : settings)
| EvAtexitRegister (cluster : nat).

(** The state of the process that the provider touches: the module global
    [_default_cluster], [os.environ.get('PGHOST')], the next object
    identity, and the calls made so far. *)
Record process := Process {
  default_cluster : option nat;
  environ_PGHOST : option string;
  next_object : nat;
  trace : list cluster_event
}.

(** A freshly imported module in a fresh process. *)
Definition initial_process (pghost : option string) : process :=
  {| default_cluster := None; environ_PGHOST := pghost;
     next_object := 0; trace := [] |}.

(** Computations over the process that may raise. *)
Definition M (A : Type) : Type := process -> outcome A * process.

#[global] Instance M_ret : MRet M := fun A a p => (Returns a, p).

#[global] Instance M_bind : MBind M := fun A B k c p =>
  match c p with
  | (Returns a, p') => k a p'
  | (Raises e, p') => (Raises e, p')
  end.

(** A call into a collaborator: it is recorded, and raises when [faults]
    says so. *)
Definition call (faults : cluster_event -> option exn) (ev : cluster_event)
  : M unit :=
  fun p =>
    let p' := {| default_cluster := default_cluster p;
                 environ_PGHOST := environ_PGHOST p;
                 next_object := next_object p;
                 trace := trace p ++ [ev] |} in
    match faults ev with
    | Some e => (Raises e, p')
    | None => (Returns tt, p')
    end.

(** The identity of the object a constructor is about to create. *)
Definition new_object : M nat :=
  fun p =>
    (Returns (next_object p),
     {| default_cluster := default_cluster p;
        environ_PGHOST := environ_PGHOST p;
        next_object := S (next_object p);
        trace := trace p |}).

Definition set_default_cluster (c : nat) : M unit :=
  fun p =>
    (Returns tt,
     {| default_cluster := Some c;
        environ_PGHOST := environ_PGHOST p;
        next_object := next_object p;
        trace := trace p |}).

Definition _start_cluster (faults : cluster_event -> option exn)
    (ClusterCls : cluster_class) (cluster_kwargs : gmap string pyval)
    (server_settings : settings) : M nat :=
  cluster ← new_object;
  call faults (EvConstruct cluster ClusterCls cluster_kwargs);;
  call faults (EvInit cluster);;
  call faults (EvTrustLocalConnections cluster);;
  call faults (EvStart cluster "dynamic" server_settings);;
  call faults (EvAtexitRegister cluster);;
  mret cluster.

(** [if pg_host:] on the result of [os.environ.get]. *)
Definition env_truthy (v : option string) : bool :=
  match v with
  | Some s => negb (String.eqb s "")
  | None => false
  end.

Definition _start_default_cluster (faults : cluster_event -> option exn)
    (server_settings : settings) : M nat :=
  fun p =>
    match default_cluster p with
    | Some c => (Returns c, p)
    | None =>
        let pg_host := environ_PGHOST p in
        (if env_truthy pg_host
         then (c ← new_object;
               call faults (EvConstruct c RunningCluster ∅);;
               set_default_cluster c;;
               mret c)
         else (c ← _start_cluster faults TempCluster ∅ server_settings;
               set_default_cluster c;;
               mret c)) p
    end.

(** [ClusterTestCase.get_server_settings] and its override in
    [ProxiedClusterTestCase]. *)
Definition ClusterTestCase_get_server_settings : settings :=
  {[ "log_connections" := "on" ]}.

Definition ProxiedClusterTestCase_get_server_settings : settings :=
  <[ "listen_addresses" := "127.0.0.1" ]> ClusterTestCase_get_server_settings.

(** [ClusterTestCase.setup_cluster] *)
Definition setup_cluster (faults : cluster_event -> option exn)
    (kind : test_kind) : M nat :=
  _start_default_cluster faults
    match kind with
    | ClusterTestCase => ClusterTestCase_get_server_settings
    | ProxiedClusterTestCase => ProxiedClusterTestCase_get_server_settings
    end.

(** No collaborator call raises. *)
Definition no_faults : cluster_event -> option exn := fun _ => None.

(** ** Cluster-backed and proxy-backed test cases *)

(** The dictionaries that have an identity: the connection spec that the
    cluster keeps, and those it hands out. *)
Abbreviation heap := (gmap nat (gmap string pyval)).

(** Modelled from the spec: [Cluster.get_connection_spec] of
    [asyncpg/cluster.py], which the module under study calls and which is not
    among its sources. It "returns a copy of the cluster's connection spec":
    a new dictionary with the entries of the one the cluster keeps (at
    [cluster]); [None] when the cluster keeps none. *)
Definition Cluster_get_connection_spec (cluster : nat) (h : heap)
  : option (nat * heap) :=
  match h !! cluster with
  | Some d => let r := fresh (dom h) in Some (r, <[r := d]> h)
  | None => None
  end.

(** [d[k] = v] and [d.update(kwargs)] on the dictionary at [r]. *)
Definition heap_setitem (r : nat) (k : string) (v : pyval) (h : heap) : heap :=
  alter (fun d => <[k := v]> d) r h.

Definition heap_update (r : nat) (kwargs : gmap string pyval) (h : heap) : heap :=
  alter (fun d => kwargs ∪ d) r h.

(** [fuzzer.TCPFuzzingProxy]: what the module reads of it. *)
Record proxy := Proxy {
  listening_addr : pyval;
  listening_port : pyval
}.

(** A test class after [setUpClass]: [cls.loop], [cls.cluster] (by the
    dictionary the cluster keeps its connection spec in) and, for the
    proxied kind, [cls.proxy]. *)
Record test_class := TestClass {
  tcls_kind : test_kind;
  tcls_loop : loop_id;
  tcls_cluster : nat;
  tcls_proxy : option proxy
}.

Definition ClusterTestCase_get_connection_spec (cls : test_class) (h : heap)
  : option (nat * heap) :=
  Cluster_get_connection_spec (tcls_cluster cls) h.

Definition ProxiedClusterTestCase_get_connection_spec (cls : test_class)
    (h : heap) : option (nat * heap) :=
  match Cluster_get_connection_spec (tcls_cluster cls) h with
  | None => None
  | Some (conn_spec, h) =>
      match tcls_proxy cls with
      | None => None
      | Some px =>
          let h := heap_setitem conn_spec "host" (listening_addr px) h in
          let h := heap_setitem conn_spec "port" (listening_port px) h in
          Some (conn_spec, h)
      end
  end.

(** [self.get_connection_spec()]: the method of the class of [self]. *)
Definition get_connection_spec (cls : test_class) (h : heap)
  : option (nat * heap) :=
  match tcls_kind cls with
  | ClusterTestCase => ClusterTestCase_get_connection_spec cls h
  | ProxiedClusterTestCase => ProxiedClusterTestCase_get_connection_spec cls h
  end.

(** The call that [connect] and [create_pool] end in: the keyword
    arguments unpacked from [conn_spec], and the loop. A [loop] entry in
    [conn_spec] clashes with the explicit [loop=] ([TypeError]). *)
Inductive made_call :=
| CallConnect (kwargs : gmap string pyval) (loop : loop_id)
| CallCreatePool (pool_class : string) (kwargs : gmap string pyval) (loop : loop_id)
| CallTypeError.

Definition unpack (mk : gmap string pyval -> made_call) (d : gmap string pyval)
  : made_call :=
  match d !! "loop" with
  | Some _ => CallTypeError
  | None => mk d
  end.

Definition ClusterTestCase_create_pool (cls : test_class) (pool_class : string)
    (kwargs : gmap string pyval) (h : heap) : option (made_call * heap) :=
  match get_connection_spec cls h with
  | None => None
  | Some (conn_spec, h) =>
      let h := heap_update conn_spec kwargs h in
      match h !! conn_spec with
      | None => None
      | Some d =>
          Some (unpack (fun d => CallCreatePool pool_class d (tcls_loop cls)) d, h)
      end
  end.

Definition ClusterTestCase_connect (cls : test_class)
    (kwargs : gmap string pyval) (h : heap) : option (made_call * heap) :=
  match get_connection_spec cls h with
  | None => None
  | Some (conn_spec, h) =>
      let h := heap_update conn_spec kwargs h in
      match h !! conn_spec with
      | None => None
      | Some d => Some (unpack (fun d => CallConnect d (tcls_loop cls)) d, h)
      end
  end.

(** A sequence of [connect] and [create_pool] calls of test bodies. *)
Inductive spec_op :=
| OpConnect (kwargs : gmap string pyval)
| OpCreatePool (pool_class : string) (kwargs : gmap string pyval).

Definition run_op (cls : test_class) (op : spec_op) (h : heap)
  : option (made_call * heap) :=
  match op with
  | OpConnect kwargs => ClusterTestCase_connect cls kwargs h
  | OpCreatePool pool_class kwargs =>
      ClusterTestCase_create_pool cls pool_class kwargs h
  end.

Fixpoint run_ops (cls : test_class) (ops : list spec_op) (h : heap)
  : option (list made_call * heap) :=
  match ops with
  | [] => Some ([], h)
  | op :: rest =>
      match run_op cls op h with
      | None => None
      | Some (c, h) =>
          match run_ops cls rest h with
          | None => None
          | Some (cs, h) => Some (c :: cs, h)
          end
      end
  end.

(** A test class whose cluster keeps a connection spec and which, if
    proxied, has its proxy. *)
Definition class_ready (cls : test_class) (h : heap) : Prop :=
  is_Some (h !! tcls_cluster cls) /\
  (tcls_kind cls = ProxiedClusterTestCase -> is_Some (tcls_proxy cls)).

(** ** Class teardown *)

(** The steps of class teardown, in program order. *)
Inductive teardown_event :=
| EvProxyStop (loop : loop_id)
| EvLoopClose (loop : loop_id)
| EvSetEventLoop (loop : option loop_id).

(** [TestCase.tearDownClass] *)
Definition TestCase_tearDownClass (cls : test_class) : list teardown_event :=
  [EvLoopClose (tcls_loop cls); EvSetEventLoop None].

(** [ProxiedClusterTestCase.tearDownClass]; [super()] resolves to
    [TestCase], since [ClusterTestCase] defines no [tearDownClass].
    [stop] is how [cls.loop.run_until_complete(cls.proxy.stop())] ends. *)
Definition ProxiedClusterTestCase_tearDownClass (cls : test_class)
    (stop : outcome unit) : list teardown_event * outcome unit :=
  match stop with
  | Raises e => ([EvProxyStop (tcls_loop cls)], Raises e)
  | Returns _ =>
      ([EvProxyStop (tcls_loop cls)] ++ TestCase_tearDownClass cls, Returns tt)
  end.

(** [a] happens before [b] in a trace. *)
Definition precedes {A} (a b : A) (tr : list A) : Prop :=
  exists i j, tr !! i = Some a /\ tr !! j = Some b /\ (i < j)%nat.

(** ** Further parts of the module *)

(** Exception classes of the runtime that the module can meet. *)
Definition KeyError : exc_class := UserError "KeyError".
Definition AttributeError : exc_class := UserError "AttributeError".

(** *** silence_asyncio_long_exec_warning *)

(** A filter of a logger: its identity, and the records (by their
    message) that it lets through. *)
Record log_filter := LogFilter {
  flt_id : nat;
  flt_accepts : string -> bool
}.

(** The local function [flt]: a new function object at every call of the
    helper. *)
Definition flt (id : nat) : log_filter :=
  {| flt_id := id;
     flt_accepts := fun msg => negb (String.prefix "Executing " msg) |}.

(** [logger.addFilter(f)] and [logger.removeFilter(f)] on the list
    [logger.filters]: a filter is added unless it is in the list, and its
    first occurrence is removed if it is. *)
Definition has_filter (id : nat) (filters : list log_filter) : bool :=
  existsb (fun f => (flt_id f =? id)%nat) filters.

Definition addFilter (f : log_filter) (filters : list log_filter)
  : list log_filter :=
  if has_filter (flt_id f) filters then filters else filters ++ [f].

Fixpoint removeFilter (id : nat) (filters : list log_filter)
  : list log_filter :=
  match filters with
  | [] => []
  | f :: rest =>
      if (flt_id f =? id)%nat then rest else f :: removeFilter id rest
  end.

(** A record is handled when every filter lets it through. *)
Definition handled (filters : list log_filter) (msg : string) : bool :=
  forallb (fun f => flt_accepts f msg) filters.

(** The identity of a function object created now: one that no filter of
    the logger has. *)
Definition new_filter_id (filters : list log_filter) : nat :=
  S (foldr Nat.max 0%nat (flt_id <$> filters)).

(** [with silence_asyncio_long_exec_warning(): block], given the filters
    of the [asyncio] logger on entry, the messages that the block logs to
    it, and how the block ends: the messages handled, the filters on exit
    and how the statement ends. *)
Definition silence_asyncio_long_exec_warning (filters : list log_filter)
    (logged : list string) (block : outcome unit)
  : list string * list log_filter * outcome unit :=
  let f := flt (new_filter_id filters) in
  let during := addFilter f filters in
  (List.filter (handled during) logged,
   removeFilter (flt_id f) during,
   try_finally block (Returns tt)).

(** *** TestCase.setUpClass and tearDownClass on the state of asyncio *)






(** *** ProxiedClusterTestCase.setUpClass: the backend of the proxy *)

(** The arguments of [fuzzer.TCPFuzzingProxy(...)]. *)
Record proxy_args := ProxyArgs {
  backend_host : pyval;
  backend_port : pyval;
  proxy_loop : loop_id
}.

(** From [conn_spec = cls.cluster.get_connection_spec()] to the
    construction of the proxy. [host.startswith] exists on text only, and
    [conn_spec['port']] raises [KeyError] when there is no port. *)
Definition proxy_backend (conn_spec : gmap string pyval) (loop : loop_id)
  : outcome proxy_args :=
  let host := match conn_spec !! "host" with
              | Some v => v
              | None => PyNone
              end in
  let host :=
    if negb (truthy host) then Returns (PyStr "127.0.0.1")
    else match host with
         | PyStr s =>
             if String.prefix "/" s then Returns (PyStr "127.0.0.1")
             else Returns host
         | _ => Raises (new_exn AttributeError "object has no attribute 'startswith'")
         end in
  match host with
  | Raises e => Raises e
  | Returns host =>
      match conn_spec !! "port" with
      | None => Raises (new_exn KeyError "'port'")
      | Some port =>
          Returns {| backend_host := host; backend_port := port;
                     proxy_loop := loop |}
      end
  end.

(** *** with_connection_options and ConnectedTestCase.setUp *)

(** [with_connection_options] applied to keyword arguments [options] and
    then to [func]: the dictionary [options]
    is a new one at every call; it becomes [func.__connect_options__]. The
    result is the identity of that dictionary. *)
Definition with_connection_options (options : gmap string pyval) (h : heap)
  : outcome nat * heap :=
  if decide (options = ∅)
  then (Raises (new_exn ValueError "no connection options were specified"), h)
  else
    let r := fresh (dom h) in
    (Returns r, <[r := options]> h).

(** The call that [setUp] ends in:
    [self.cluster.connect(loop=self.loop, **opts)]. *)
Inductive connect_call :=
| ClusterConnect (kwargs : gmap string pyval) (loop : loop_id).

(** [ConnectedTestCase.setUp], from the lookup of [__connect_options__]
    on the test function ([connect_options]: the dictionary it holds, if it
    has the attribute) to the call of [connect]. [None] stands for a
    dangling reference. *)
Definition ConnectedTestCase_setUp (loop : loop_id)
    (connect_options : option nat) (h : heap)
  : option (outcome connect_call * heap) :=
  (* opts = getattr(test_func, '__connect_options__', {}) *)
  let '(opts, h) :=
    match connect_options with
    | Some r => (r, h)
    | None => let r := fresh (dom h) in (r, <[r := ∅]> h)
    end in
  match h !! opts with
  | None => None
  | Some d =>
      (* if 'database' not in opts: opts = dict(opts); opts['database'] = ... *)
      let '(opts, h) :=
        match d !! "database" with
        | Some _ => (opts, h)
        | None =>
            let r := fresh (dom h) in
            (r, heap_setitem r "database" (PyStr "postgres") (<[r := d]> h))
        end in
      match h !! opts with
      | None => None
      | Some d =>
          Some (match d !! "loop" with
                | Some _ =>
                    Raises (new_exn TypeError
                      "got multiple values for keyword argument 'loop'")
                | None => Returns (ClusterConnect d loop)
                end, h)
      end
  end.

(** *** _shutdown_cluster and the exit of the process *)

Inductive shutdown_event :=
| EvGetStatus (cluster : nat)
| EvStop (cluster : nat)
| EvDestroy (cluster : nat).

(** [_shutdown_cluster(cluster)]. [status] is what [cluster.get_status()]
    returns, and [fails] tells which of the calls on the cluster raise, and
    what. An exception of [get_status] or of [stop] leaves the function at
    once, so that [destroy] is not reached. The result is the calls made, in
    their order, and how the function ends. *)
Definition _shutdown_cluster (status : nat -> string)
    (fails : shutdown_event -> option exn) (cluster : nat)
  : list shutdown_event * outcome unit :=
  match fails (EvGetStatus cluster) with
  | Some e => ([EvGetStatus cluster], Raises e)
  | None =>
      if String.eqb (status cluster) "running" then
        match fails (EvStop cluster) with
        | Some e => ([EvGetStatus cluster; EvStop cluster], Raises e)
        | None =>
            ([EvGetStatus cluster; EvStop cluster; EvDestroy cluster],
             match fails (EvDestroy cluster) with
             | Some e => Raises e
             | None => Returns tt
             end)
        end
      else
        ([EvGetStatus cluster; EvDestroy cluster],
         match fails (EvDestroy cluster) with
         | Some e => Raises e
         | None => Returns tt
         end)
  end.

(** No call on a cluster raises at shutdown. *)
Definition no_shutdown_faults : shutdown_event -> option exn := fun _ => None.

(** [cluster.stop()] raises. *)
Definition stop_fails : shutdown_event -> option exn :=
  fun ev => match ev with
            | EvStop _ => Some (new_exn (UserError "ClusterError")
                                  "pg_ctl stop exited with status 1")
            | _ => None
            end.

(** The clusters for which [atexit.register(_shutdown_cluster, cluster)]
    has been called, in the order of the calls. *)
Fixpoint atexit_registered (tr : list cluster_event) : list nat :=
  match tr with
  | [] => []
  | EvAtexitRegister c :: rest => c :: atexit_registered rest
  | _ :: rest => atexit_registered rest
  end.

(** The exit of the process: [atexit] runs what was registered, last
    registered first; an exception of one of the functions is reported and
    the others are still run. The result is the calls made on clusters. *)
Definition run_exitfuncs (status : nat -> string)
    (fails : shutdown_event -> option exn) (tr : list cluster_event)
  : list shutdown_event :=
  flat_map (fun c => (_shutdown_cluster status fails c).1)
           (rev (atexit_registered tr)).

(** [ClusterTestCase.start_cluster(ClusterCls, cluster_kwargs=...,
    server_settings=...)] *)
Definition ClusterTestCase_start_cluster (faults : cluster_event -> option exn)
    (ClusterCls : cluster_class) (cluster_kwargs : gmap string pyval)
    (server_settings : settings) : M nat :=
  _start_cluster faults ClusterCls cluster_kwargs server_settings.

(** Calls of [_start_default_cluster], one after the other, with the
    settings of the list. *)
Fixpoint start_default_many (faults : cluster_event -> option exn)
    (ss : list settings) (p : process) : list (outcome nat) * process :=
  match ss with
  | [] => ([], p)
  | s :: rest =>
      let '(o, p) := _start_default_cluster faults s p in
      let '(os, p) := start_default_many faults rest p in
      (o :: os, p)
  end.

(** Every object of the process so far, the default cluster among them,
    is older than the next object. *)
Definition process_wf (p : process) : Prop :=
  forall c, default_cluster p = Some c -> (c < next_object p)%nat.

(** *** The module-level create_pool *)

(** A keyword argument: a plain value, or an object known by its name (a
    class, a callable, a loop). *)
Inductive pyarg :=
| ArgVal (v : pyval)
| ArgObj (name : string)
| ArgLoop (loop : loop_id).

(** The call [pool_class(dsn, min_size=..., ..., **connect_kwargs)] that
    [create_pool] returns the result of. *)
Record pool_construct := PoolConstruct {
  pc_pool_class : pyarg;
  pc_dsn : pyarg;
  pc_kwargs : gmap string pyarg
}.

(** The parameters that [create_pool] names; the keyword arguments of a
    call that are none of them are collected in [connect_kwargs]. *)
Definition create_pool_params : list string :=
  ["dsn"; "min_size"; "max_size"; "max_queries";
   "max_inactive_connection_lifetime"; "setup"; "init"; "loop";
   "pool_class"; "connection_class"].

(** [create_pool] called with the keyword arguments [kw]. *)
Definition create_pool (kw : gmap string pyarg) : pool_construct :=
  let arg k dflt := match kw !! k with Some v => v | None => dflt end in
  let connect_kwargs := foldr delete kw create_pool_params in
  {| pc_pool_class := arg "pool_class" (ArgObj "asyncpg.pool.Pool");
     pc_dsn := arg "dsn" (ArgVal PyNone);
     pc_kwargs :=
       <["min_size" := arg "min_size" (ArgVal (PyInt 10))]>
       (<["max_size" := arg "max_size" (ArgVal (PyInt 10))]>
       (<["max_queries" := arg "max_queries" (ArgVal (PyInt 50000))]>
       (<["loop" := arg "loop" (ArgVal PyNone)]>
       (<["setup" := arg "setup" (ArgVal PyNone)]>
       (<["init" := arg "init" (ArgVal PyNone)]>
       (<["max_inactive_connection_lifetime" :=
            arg "max_inactive_connection_lifetime" (ArgVal (PyFloat (60 # 1)))]>
       (<["connection_class" :=
            arg "connection_class" (ArgObj "asyncpg.connection.Connection")]>
        connect_kwargs))))))) |}.

(** The keyword arguments of the call of [create_pool] in
    [ClusterTestCase.create_pool]:
    [loop=self.loop, pool_class=pool_class, **conn_spec]. *)
Definition create_pool_call_args (pool_class : string)
    (conn_spec : gmap string pyval) (loop : loop_id) : gmap string pyarg :=
  <["loop" := ArgLoop loop]>
  (<["pool_class" := ArgObj pool_class]> (ArgVal <$> conn_spec)).

(** What a call made by [create_pool] or [connect] of a test case
    constructs, for the calls that reach the module-level [create_pool]. *)
Definition pool_of_call (c : made_call) : option pool_construct :=
  match c with
  | CallCreatePool pool_class conn_spec loop =>
      match conn_spec !! "pool_class" with
      | Some _ => None
      | None => Some (create_pool (create_pool_call_args pool_class conn_spec loop))
      end
  | _ => None
  end.

(** The defaults of the parameters of [create_pool] that it passes on by
    keyword. *)
Definition create_pool_defaults : gmap string pyarg :=
  list_to_map
    [("min_size", ArgVal (PyInt 10)); ("max_size", ArgVal (PyInt 10));
     ("max_queries", ArgVal (PyInt 50000));
     ("max_inactive_connection_lifetime", ArgVal (PyFloat (60 # 1)));
     ("setup", ArgVal PyNone); ("init", ArgVal PyNone);
     ("loop", ArgVal PyNone);
     ("connection_class", ArgObj "asyncpg.connection.Connection")].

(** The options that [setUp] connects with, given those of the test. *)
Definition with_default_database (opts : gmap string pyval) : gmap string pyval :=
  match opts !! "database" with
  | Some _ => opts
  | None => <["database" := PyStr "postgres"]> opts
  end.

(** A cluster whose [init] fails. *)
Definition init_fails : cluster_event -> option exn :=
  fun ev => match ev with
            | EvInit _ => Some (new_exn (UserError "ClusterError") "initdb failed")
            | _ => None
            end.

(** ** A runtime for the examples

    Integers print in decimal; a float prints with up to three decimals
    (['{}']) or exactly three (['{:0.3f}']), rounded half up; a pattern is
    taken as literal text, so that searching is finding a substring, which
    is what [re.search] does for a pattern free of metacharacters. *)
Definition thousandths (q : Q) : Z := Qfloor (q * 1000 + (1 # 2)).

Definition pad3 (n : Z) : string :=
  (if (n <? 10)%Z then "00" ++ pretty n
   else if (n <? 100)%Z then "0" ++ pretty n
   else pretty n)%string.

Definition trim3 (n : Z) : string :=
  if (n mod 100 =? 0)%Z then pretty (n / 100)%Z
  else if (n mod 10 =? 0)%Z
       then ((if (n <? 100)%Z then "0" else "") ++ pretty (n / 10)%Z)%string
       else pad3 n.

Definition sample_format_3f (q : Q) : string :=
  let m := thousandths q in
  let a := Z.abs m in
  ((if (m <? 0)%Z then "-" else "") ++ pretty (a / 1000)%Z ++ "."
     ++ pad3 (a mod 1000)%Z)%string.

Definition sample_format_str (v : pyval) : string :=
  match v with
  | PyNone => "None"
  | PyInt z => pretty z
  | PyFloat q =>
      let m := thousandths q in
      let a := Z.abs m in
      ((if (m <? 0)%Z then "-" else "") ++ pretty (a / 1000)%Z ++ "."
         ++ trim3 (a mod 1000)%Z)%string
  | PyStr s => s
  end.

Definition sample_re_search (pattern s : string) : bool :=
  match String.index 0 pattern s with
  | Some _ => true
  | None => false
  end.

Definition sample_runtime : PyRuntime :=
  {| format_str := sample_format_str;
     format_3f := sample_format_3f;
     format_repr := fun s => ("'" ++ s ++ "'")%string;
     re_search := sample_re_search;
     deadline_tie_times_out := true |}.

(** ** Objects for the examples *)

Definition Mixin_test_x : corofn :=
  {| co_name := "Mixin.test_x"; co_timeout := None;
     co_duration := 1; co_result := Returns PyNone |}.

Definition T_test_x : corofn :=
  {| co_name := "T.test_x"; co_timeout := None;
     co_duration := 2; co_result := Returns PyNone |}.

Definition T_test_y : corofn :=
  {| co_name := "T.test_y"; co_timeout := None;
     co_duration := 3; co_result := Returns PyNone |}.

(** A class with [async def test_x], not built by the metaclass. *)
Definition Mixin : pyclass :=
  PyClass "Mixin" [("helper", ObjFunc "Mixin.helper");
                   ("test_x", ObjCoro Mixin_test_x)].

(** Two classes, not built by the metaclass, that both have
    [async def test_x]. *)
Definition Other_test_x : corofn :=
  {| co_name := "Other.test_x"; co_timeout := None;
     co_duration := 4; co_result := Returns PyNone |}.

Definition Other : pyclass :=
  PyClass "Other" [("test_x", ObjCoro Other_test_x)].

(** [TestCase] as a base: no attribute of it has the [test_] prefix. *)
Definition TestCase_base : pyclass :=
  PyClass "TestCase"
    [("assertLoopErrorHandlerCalled", ObjFunc "TestCase.assertLoopErrorHandlerCalled");
     ("assertRunUnder", ObjFunc "TestCase.assertRunUnder");
     ("setUpClass", ObjFunc "TestCase.setUpClass");
     ("tearDownClass", ObjFunc "TestCase.tearDownClass")].

(** A test that sleeps for 0.7 seconds and a test that raises. *)
Definition test_slow : corofn :=
  {| co_name := "T.test_slow"; co_timeout := None;
     co_duration := 7 # 10; co_result := Returns PyNone |}.

(** A test that hangs for 61 seconds. *)
Definition test_hang : corofn :=
  {| co_name := "T.test_hang"; co_timeout := None;
     co_duration := 61; co_result := Returns PyNone |}.

Definition boom : exn := new_exn (UserError "ValueError") "boom".

Definition test_raises : corofn :=
  {| co_name := "T.test_raises"; co_timeout := None;
     co_duration := 1 # 10; co_result := Raises boom |}.

Definition sample_self : testcase :=
  {| tc_loop := 7; tc_failureException := AssertionError |}.

(** A cluster that keeps its connection spec in the dictionary 0, and a
    proxied test class on it. *)
Definition sample_spec : gmap string pyval :=
  {[ "host" := PyStr "/tmp/pg"; "port" := PyInt 5432;
     "database" := PyStr "postgres" ]}.

(** The connection spec of a cluster that listens on a TCP address. *)
Definition tcp_spec : gmap string pyval :=
  {[ "host" := PyStr "10.0.0.5"; "port" := PyInt 6432 ]}.

Definition sample_heap : heap := {[ 0%nat := sample_spec ]}.

Definition sample_proxy : proxy :=
  {| listening_addr := PyStr "127.0.0.1"; listening_port := PyInt 40001 |}.

Definition sample_class : test_class :=
  {| tcls_kind := ClusterTestCase; tcls_loop := 7;
     tcls_cluster := 0; tcls_proxy := None |}.

Definition sample_proxied_class : test_class :=
  {| tcls_kind := ProxiedClusterTestCase; tcls_loop := 7;
     tcls_cluster := 0; tcls_proxy := Some sample_proxy |}.

(** A block in which a background task fails and the loop reports it, and
    one in which the loop reports an error without a message text. *)
Definition boom_context : context :=
  {[ "message" := PyStr "Task exception was never retrieved: kaboom" ]}.

Definition boom_block : block :=
  {| blk_actions := [CallExceptionHandler boom_context];
     blk_outcome := Returns tt |}.

Definition silent_context : context := {[ "message" := PyStr "" ]}.

Definition silent_block : block :=
  {| blk_actions := [CallExceptionHandler silent_context];
     blk_outcome := Returns tt |}.

(* ===================================================================== *)
(** * Part II: properties                                                 *)
(* ===================================================================== *)

(** ** Dictionaries *)

Lemma dict_get_set_eq d k v : dict_get (dict_set d k v) k = Some v.
Proof.
  induction d as [|[k' v'] d IH]; simpl.
  - by rewrite String.eqb_refl.
  - destruct (String.eqb k' k) eqn:E; simpl; rewrite E; done.
Qed.

Lemma dict_get_set_ne d k k' v :
  k <> k' -> dict_get (dict_set d k v) k' = dict_get d k'.
Proof.
  intros Hne. induction d as [|[k0 v0] d IH]; simpl.
  - destruct (String.eqb k k') eqn:E; [|done].
    apply String.eqb_eq in E. done.
  - destruct (String.eqb k0 k) eqn:E; simpl.
    + apply String.eqb_eq in E. subst k0.
      destruct (String.eqb k k') eqn:E'; [|done].
      apply String.eqb_eq in E'. done.
    + by rewrite IH.
Qed.

Lemma dict_get_set d k k' v :
  dict_get (dict_set d k v) k' =
  if String.eqb k k' then Some v else dict_get d k'.
Proof.
  destruct (String.eqb k k') eqn:E.
  - apply String.eqb_eq in E. subst. apply dict_get_set_eq.
  - apply String.eqb_neq in E. by apply dict_get_set_ne.
Qed.

Lemma dict_get_None_keys (d : dict) k :
  dict_get d k = None <-> k ∉ dict_keys d.
Proof.
  unfold dict_keys. induction d as [|[k' v'] d IH]; simpl.
  - split; [intros _; apply not_elem_of_nil | done].
  - rewrite not_elem_of_cons. destruct (String.eqb k' k) eqn:E.
    + apply String.eqb_eq in E. split; [done|]. intros [? _]. by subst.
    + apply String.eqb_neq in E. rewrite IH. split; [by intros ?; split; [congruence|]|by intros [_ ?]].
Qed.

(** Assigning to the key of the entry at position [pos] rewrites that
    entry in place. *)
Lemma dict_set_at (d : dict) pos k v v' :
  NoDup (dict_keys d) -> d !! pos = Some (k, v) ->
  dict_set d k v' = <[pos := (k, v')]> d.
Proof.
  revert pos. induction d as [|[k0 v0] d IH]; intros pos Hnd Hpos; [done|].
  apply NoDup_cons in Hnd as [Hnotin Hnd]. simpl.
  destruct pos as [|pos]; simpl in *.
  - injection Hpos as -> ->. by rewrite String.eqb_refl.
  - destruct (String.eqb k0 k) eqn:E.
    + apply String.eqb_eq in E. subst k0. exfalso. apply Hnotin.
      unfold dict_keys. apply list_elem_of_fmap. exists (k, v). split; [done|].
      by eapply list_elem_of_lookup_2.
    + f_equal. by apply IH.
Qed.

Lemma dict_keys_set (d : dict) k v :
  dict_keys (dict_set d k v) =
  if decide (k ∈ dict_keys d) then dict_keys d else dict_keys d ++ [k].
Proof.
  unfold dict_keys. induction d as [|[k0 v0] d IH].
  - destruct (decide (k ∈ ([] : dict).*1)) as [Hin|_]; [|done].
    by apply elem_of_nil in Hin.
  - cbn [dict_set]. destruct (String.eqb k0 k) eqn:E.
    + apply String.eqb_eq in E. subst k0.
      destruct (decide (k ∈ ((k, v0) :: d).*1)) as [_|Hnin]; [done|].
      exfalso. apply Hnin. by left.
    + apply String.eqb_neq in E. rewrite fmap_cons, IH.
      destruct (decide (k ∈ d.*1)) as [Hin|Hnin];
        destruct (decide (k ∈ ((k0, v0) :: d).*1)) as [Hin'|Hnin']; try done.
      * exfalso. apply Hnin'. by right.
      * apply elem_of_cons in Hin' as [?|?]; [simpl in *; congruence | done].
Qed.

Lemma dict_set_NoDup (d : dict) k v :
  NoDup (dict_keys d) -> NoDup (dict_keys (dict_set d k v)).
Proof.
  intros Hnd. rewrite dict_keys_set. case_decide; [done|].
  apply NoDup_app. split_and!; [done | | apply NoDup_singleton].
  intros x Hx Hx'. apply list_elem_of_singleton in Hx'. by subst.
Qed.

Lemma dict_get_fmap_wrap (d : dict) k :
  dict_get (wrap_entry <$> d) k = wrap_val k <$> dict_get d k.
Proof.
  induction d as [|[k0 v0] d IH]; simpl; [done|].
  destruct (String.eqb k0 k) eqn:E; [|done].
  apply String.eqb_eq in E. by subst.
Qed.

(** ** The first loop: bases *)

Lemma new_over_dir_NoDup attrs ns :
  NoDup (dict_keys ns) -> NoDup (dict_keys (new_over_dir attrs ns)).
Proof.
  revert ns. induction attrs as [|[n m] attrs IH]; intros ns Hnd; simpl; [done|].
  destruct (startswith_test n); simpl; [|by apply IH].
  destruct (iscoroutinefunction m); simpl; [|by apply IH].
  apply IH. by apply dict_set_NoDup.
Qed.

Lemma new_over_bases_NoDup bases ns :
  NoDup (dict_keys ns) -> NoDup (dict_keys (new_over_bases bases ns)).
Proof.
  revert ns. induction bases as [|b bases IH]; intros ns Hnd; simpl; [done|].
  by apply IH, new_over_dir_NoDup.
Qed.

Lemma new_over_dir_get attrs ns k :
  dict_get (new_over_dir attrs ns) k =
  match dir_coro attrs k with
  | Some m => Some (ObjWrapper m)
  | None => dict_get ns k
  end.
Proof.
  revert ns. induction attrs as [|[n m] attrs IH]; intros ns; simpl; [done|].
  destruct (startswith_test n); simpl.
  2:{ rewrite IH. by destruct (dir_coro attrs k). }
  destruct (iscoroutinefunction m); simpl.
  2:{ rewrite IH. by destruct (dir_coro attrs k). }
  rewrite IH. destruct (dir_coro attrs k); [done|].
  unfold loop_body. rewrite dict_get_set. by destruct (String.eqb n k).
Qed.

Lemma new_over_bases_get bases ns k :
  dict_get (new_over_bases bases ns) k =
  match inherited_coro bases k with
  | Some m => Some (ObjWrapper m)
  | None => dict_get ns k
  end.
Proof.
  revert ns. induction bases as [|b bases IH]; intros ns; simpl; [done|].
  rewrite IH. destruct (inherited_coro bases k); [done|].
  apply new_over_dir_get.
Qed.

Lemma dir_coro_Some attrs k m :
  dir_coro attrs k = Some m ->
  startswith_test k = true /\ iscoroutinefunction m = true /\ (k, m) ∈ attrs.
Proof.
  induction attrs as [|[n m0] attrs IH]; simpl; [done|].
  destruct (dir_coro attrs k) as [m'|].
  - intros [= ->]. destruct IH as (?&?&?); [done|].
    split_and!; [done..|by right].
  - destruct (startswith_test n) eqn:E1; simpl; [|done].
    destruct (iscoroutinefunction m0) eqn:E2; simpl; [|done].
    destruct (String.eqb n k) eqn:E3; [|done].
    apply String.eqb_eq in E3. subst n. intros [= ->].
    split_and!; [done..|by left].
Qed.

Lemma dir_coro_None attrs k m :
  dir_coro attrs k = None -> startswith_test k = true -> (k, m) ∈ attrs ->
  iscoroutinefunction m = false.
Proof.
  intros Hnone Hp Hin. induction attrs as [|[n m0] attrs IH]; simpl in *.
  - by apply elem_of_nil in Hin.
  - destruct (dir_coro attrs k) as [m'|]; [done|].
    apply elem_of_cons in Hin as [[= <- <-]|Hin]; [|by apply IH].
    rewrite Hp, String.eqb_refl in Hnone. simpl in Hnone.
    by destruct (iscoroutinefunction m).
Qed.

Lemma inherited_coro_Some bases k m :
  inherited_coro bases k = Some m ->
  startswith_test k = true /\ iscoroutinefunction m = true /\
  exists base, base ∈ bases /\ (k, m) ∈ cls_attrs base.
Proof.
  induction bases as [|b bases IH]; simpl; [done|].
  destruct (inherited_coro bases k) as [m'|].
  - intros [= ->]. destruct IH as (?&?&b'&?&?); [done|].
    split_and!; [done..|]. exists b'. split; [by right | done].
  - intros H. apply dir_coro_Some in H as (?&?&?).
    split_and!; [done..|]. exists b. split; [by left | done].
Qed.

Lemma inherited_coro_None bases k :
  startswith_test k = true ->
  inherited_coro bases k = None <-> ~ base_has_coro bases k.
Proof.
  intros Hp. split.
  - intros Hnone (b & m & Hb & Hin & Hco).
    induction bases as [|b0 bases IH]; simpl in *.
    + by apply elem_of_nil in Hb.
    + destruct (inherited_coro bases k) as [m'|] eqn:E; [done|].
      apply elem_of_cons in Hb as [->|Hb]; [|by apply IH].
      by rewrite (dir_coro_None _ _ _ Hnone Hp Hin) in Hco.
  - intros Hno. destruct (inherited_coro bases k) as [m|] eqn:E; [|done].
    exfalso. apply Hno. apply inherited_coro_Some in E as (_&?&b&?&?).
    by exists b, m.
Qed.


(** ** The second loop: the live namespace *)

Lemma wrap_entry_skip k v :
  startswith_test k && iscoroutinefunction v = false -> wrap_entry (k, v) = (k, v).
Proof. unfold wrap_entry, wrap_val. simpl. by intros ->. Qed.

Lemma new_over_ns_lookup n : forall pos (ns : dict) i,
  NoDup (dict_keys ns) ->
  new_over_ns n pos ns !! i =
  if bool_decide (pos <= i < pos + n)%nat
  then wrap_entry <$> ns !! i else ns !! i.
Proof.
  induction n as [|n IH]; intros pos ns i Hnd.
  - rewrite bool_decide_eq_false_2; [done | lia].
  - cbn [new_over_ns]. destruct (ns !! pos) as [[k v]|] eqn:Hpos.
    + destruct (startswith_test k && iscoroutinefunction v) eqn:Hm.
      * apply andb_true_iff in Hm as [Hp Hc]. rewrite Hp, Hc. cbn [negb].
        unfold loop_body. rewrite (dict_set_at ns pos k v _ Hnd Hpos).
        rewrite IH.
        2:{ rewrite <- (dict_set_at ns pos k v _ Hnd Hpos).
            by apply dict_set_NoDup. }
        destruct (decide (i = pos)) as [->|Hne].
        -- rewrite bool_decide_eq_false_2 by lia.
           rewrite bool_decide_eq_true_2 by lia.
           rewrite list_lookup_insert_eq by (by eapply lookup_lt_Some).
           rewrite Hpos. unfold wrap_entry, wrap_val. simpl. by rewrite Hp, Hc.
        -- rewrite list_lookup_insert_ne by done.
           destruct (decide (pos <= i < pos + S n)%nat).
           ++ rewrite !bool_decide_eq_true_2 by lia. done.
           ++ rewrite !bool_decide_eq_false_2 by lia. done.
      * assert (new_over_ns n (S pos) ns !! i =
                if bool_decide (pos <= i < pos + S n)%nat
                then wrap_entry <$> ns !! i else ns !! i) as Hgoal.
        { rewrite IH by done.
          destruct (decide (i = pos)) as [->|Hne].
          - rewrite bool_decide_eq_false_2 by lia.
            rewrite bool_decide_eq_true_2 by lia.
            rewrite Hpos. simpl. by rewrite wrap_entry_skip.
          - destruct (decide (pos <= i < pos + S n)%nat).
            + rewrite !bool_decide_eq_true_2 by lia. done.
            + rewrite !bool_decide_eq_false_2 by lia. done. }
        apply andb_false_iff in Hm as [Hp|Hc].
        -- rewrite Hp. exact Hgoal.
        -- rewrite Hc. destruct (startswith_test k); exact Hgoal.
    + case_bool_decide as Hr; [|done].
      assert (ns !! i = None) as ->; [|done].
      apply lookup_ge_None. apply lookup_ge_None in Hpos. lia.
Qed.

Lemma new_over_ns_all (ns : dict) :
  NoDup (dict_keys ns) ->
  new_over_ns (List.length ns) 0 ns = wrap_entry <$> ns.
Proof.
  intros Hnd. apply list_eq. intros i.
  rewrite new_over_ns_lookup by done. rewrite list_lookup_fmap.
  case_bool_decide as Hr; [done|].
  assert (ns !! i = None) as ->; [|done].
  apply lookup_ge_None. lia.
Qed.

(** ** The namespace of the constructed class *)

(** Under each name the class holds: the wrapper of the coroutine function
    that the bases yield last under it, if they yield one; otherwise what
    the namespace holds, wrapped if it is a coroutine test method. *)
Lemma TestCaseMeta_new_get bases ns k :
  NoDup (dict_keys ns) ->
  dict_get (TestCaseMeta_new bases ns) k =
  match inherited_coro bases k with
  | Some m => Some (ObjWrapper m)
  | None => wrap_val k <$> dict_get ns k
  end.
Proof.
  intros Hnd. unfold TestCaseMeta_new.
  rewrite new_over_ns_all by (by apply new_over_bases_NoDup).
  rewrite dict_get_fmap_wrap, new_over_bases_get.
  destruct (inherited_coro bases k) as [m|]; [|done].
  simpl. unfold wrap_val. simpl. by rewrite andb_false_r.
Qed.

(** ** The generator and the loop of [__new__] *)

Lemma for_loop_ext fuel g g' (ns : dict) :
  gen_next g ns = gen_next g' ns -> for_loop fuel g ns = for_loop fuel g' ns.
Proof. intros Heq. destruct fuel; simpl; [done|]. by rewrite Heq. Qed.

Lemma resume_bases_skip n m attrs rest :
  startswith_test n && iscoroutinefunction m = false ->
  resume_bases ((n, m) :: attrs) rest = resume_bases attrs rest.
Proof.
  intros Hc. destruct rest; simpl;
    destruct (startswith_test n), (iscoroutinefunction m); simpl in *;
    done.
Qed.

Lemma resume_bases_yield n m attrs rest :
  startswith_test n && iscoroutinefunction m = true ->
  resume_bases ((n, m) :: attrs) rest = Some ((n, m), GenBases attrs rest).
Proof.
  intros Hc. apply andb_true_iff in Hc as [Hp Hco].
  destruct rest; simpl; by rewrite Hp, Hco.
Qed.

Lemma new_over_dir_skip n m attrs (ns : dict) :
  startswith_test n && iscoroutinefunction m = false ->
  new_over_dir ((n, m) :: attrs) ns = new_over_dir attrs ns.
Proof.
  intros Hc. simpl.
  destruct (startswith_test n), (iscoroutinefunction m); simpl in *; done.
Qed.

Lemma new_over_dir_yield n m attrs (ns : dict) :
  startswith_test n && iscoroutinefunction m = true ->
  new_over_dir ((n, m) :: attrs) ns = new_over_dir attrs (loop_body n m ns).
Proof.
  intros Hc. apply andb_true_iff in Hc as [Hp Hco]. simpl. by rewrite Hp, Hco.
Qed.

(** The first loop: after as many resumptions as it has [yield]s, the
    namespace is the one that [new_over_bases] computes, and the generator
    is through with the bases. *)
Lemma for_loop_dir rest attrs : forall (ns : dict) k,
  (forall (ns : dict) k,
     for_loop (bases_yields rest + k) (GenBases [] rest) ns
     = for_loop k (GenBases [] []) (new_over_bases rest ns)) ->
  for_loop (dir_yields attrs + bases_yields rest + k) (GenBases attrs rest) ns
  = for_loop k (GenBases [] []) (new_over_bases rest (new_over_dir attrs ns)).
Proof.
  induction attrs as [|[n m] attrs IH]; intros ns k Hnil.
  - simpl. apply Hnil.
  - cbn [dir_yields].
    destruct (startswith_test n && iscoroutinefunction m) eqn:Hc.
    + rewrite new_over_dir_yield by done.
      rewrite <- IH by done.
      change (S (dir_yields attrs) + bases_yields rest + k)%nat
        with (S (dir_yields attrs + bases_yields rest + k)).
      cbn [for_loop gen_next]. by rewrite resume_bases_yield.
    + rewrite new_over_dir_skip by done.
      rewrite <- IH by done.
      apply for_loop_ext. cbn [gen_next]. by rewrite resume_bases_skip.
Qed.

Lemma for_loop_bases rest : forall (ns : dict) k,
  for_loop (bases_yields rest + k) (GenBases [] rest) ns
  = for_loop k (GenBases [] []) (new_over_bases rest ns).
Proof.
  induction rest as [|base rest IH]; intros ns k; [done|].
  cbn [bases_yields new_over_bases].
  rewrite <- (for_loop_dir rest (cls_attrs base) ns k IH).
  by apply for_loop_ext.
Qed.

Lemma loop_body_length (ns : dict) pos k v :
  NoDup (dict_keys ns) -> ns !! pos = Some (k, v) ->
  List.length (loop_body k v ns) = List.length ns.
Proof.
  intros Hnd Hpos. unfold loop_body.
  rewrite (dict_set_at ns pos k v _ Hnd Hpos). apply length_insert.
Qed.

(** The second loop: the iterator never finds the size of the namespace
    changed, and the loop ends in the namespace that [new_over_ns]
    computes. *)
Lemma for_loop_ns d : forall pos (ns : dict) k,
  NoDup (dict_keys ns) -> d = (List.length ns - pos)%nat ->
  for_loop (S d + k) (GenNs pos (List.length ns)) ns
  = Some (Returns (new_over_ns d pos ns)).
Proof.
  induction d as [|d IH]; intros pos ns k Hnd Hd.
  - cbn [for_loop Nat.add gen_next]. rewrite <- Hd. cbn [resume_ns].
    rewrite Nat.eqb_refl. cbn [negb].
    assert (ns !! pos = None) as -> by (apply lookup_ge_None; lia).
    done.
  - assert (is_Some (ns !! pos)) as [[n m] Hpos]
      by (apply lookup_lt_is_Some; lia).
    assert (Hnext : (List.length ns - S pos)%nat = d) by lia.
    destruct (startswith_test n && iscoroutinefunction m) eqn:Hc.
    + apply andb_true_iff in Hc as [Hp Hco].
      change (S (S d) + k)%nat with (S (S d + k)).
      cbn [for_loop gen_next]. rewrite <- Hd. cbn [resume_ns].
      rewrite Nat.eqb_refl, Hpos, Hp, Hco. cbn [negb].
      cbn [new_over_ns]. rewrite Hpos, Hp, Hco. cbn [negb].
      rewrite <- (loop_body_length ns pos n m Hnd Hpos).
      apply IH.
      * by apply dict_set_NoDup.
      * rewrite (loop_body_length ns pos n m Hnd Hpos). lia.
    + assert (Hskip : new_over_ns (S d) pos ns = new_over_ns d (S pos) ns).
      { cbn [new_over_ns]. rewrite Hpos.
        destruct (startswith_test n), (iscoroutinefunction m);
          simpl in *; done. }
      rewrite Hskip.
      rewrite <- (IH (S pos) ns (S k) Hnd (eq_sym Hnext)).
      replace (S (S d) + k)%nat with (S d + S k)%nat by lia.
      apply for_loop_ext. cbn [gen_next]. rewrite <- Hd, Hnext.
      cbn [resume_ns]. rewrite Nat.eqb_refl, Hpos. cbn [negb].
      destruct (startswith_test n), (iscoroutinefunction m);
        simpl in *; done.
Qed.

(** Given enough fuel, the loop of [__new__] over the generator ends,
    raises nothing, and leaves the namespace that [TestCaseMeta_new]
    computes. *)
Lemma for_loop_iter_methods bases (ns : dict) fuel :
  NoDup (dict_keys ns) -> (enough_fuel bases ns <= fuel)%nat ->
  for_loop fuel (_iter_methods bases) ns
  = Some (Returns (TestCaseMeta_new bases ns)).
Proof.
  intros Hnd Hfuel. unfold enough_fuel in Hfuel.
  set (ns1 := new_over_bases bases ns) in *.
  replace fuel with (bases_yields bases
                     + (S (List.length ns1) + (fuel - enough_fuel bases ns)))%nat
    by (unfold enough_fuel; fold ns1; lia).
  unfold _iter_methods. rewrite for_loop_bases. fold ns1.
  unfold TestCaseMeta_new. fold ns1.
  rewrite <- (for_loop_ns (List.length ns1) 0 ns1
                (fuel - enough_fuel bases ns)).
  - apply for_loop_ext. cbn [gen_next resume_bases resume_dir].
    by rewrite Nat.sub_0_r.
  - by apply new_over_bases_NoDup.
  - lia.
Qed.

Lemma collected_coro bases ns k m :
  collected bases ns k m -> exists f, m = ObjCoro f.
Proof.
  intros (_ & Hc & _). destruct m; simpl in Hc; try done. by eexists.
Qed.

(** What the bases yield under a name shadows the namespace, whatever the
    namespace holds under it. *)
Lemma inherited_shadows_namespace bases ns k m :
  NoDup (dict_keys ns) -> inherited_coro bases k = Some m ->
  dict_get (TestCaseMeta_new bases ns) k = Some (ObjWrapper m).
Proof. intros Hnd Hi. rewrite TestCaseMeta_new_get by done. by rewrite Hi. Qed.

(** C1, the code at the failing input. [class T(Mixin, TestCase)] whose
    body defines [test_x] as a plain function, while [Mixin] has a coroutine
    function [test_x]. The entry of the namespace is not a coroutine
    function and is to be left untouched; but the generator yields the
    method of [Mixin], and the loop body assigns its wrapper to
    [ns['test_x']] without looking at what the namespace holds there. The
    class ends up with the wrapper of the inherited coroutine in the place
    of its own function. *)
Theorem TestCaseMeta_new_not_untouched :
  let bases := [Mixin; TestCase_base] in
  let ns := [("test_x", ObjFunc "T.test_x")] in
  NoDup (dict_keys ns) /\
  dict_get ns "test_x" = Some (ObjFunc "T.test_x") /\
  iscoroutinefunction (ObjFunc "T.test_x") = false /\
  (* first resumption: the method of the base is yielded *)
  gen_next (_iter_methods bases) ns
    = Yield "test_x" (ObjCoro Mixin_test_x) (GenBases [] [TestCase_base]) /\
  (* the loop body overwrites the function of the class *)
  loop_body "test_x" (ObjCoro Mixin_test_x) ns
    = [("test_x", ObjWrapper (ObjCoro Mixin_test_x))] /\
  (* second resumption: the generator is exhausted *)
  gen_next (GenBases [] [TestCase_base])
      [("test_x", ObjWrapper (ObjCoro Mixin_test_x))]
    = StopIteration /\
  for_loop (enough_fuel bases ns) (_iter_methods bases) ns
    = Some (Returns (TestCaseMeta_new bases ns)) /\
  dict_get (TestCaseMeta_new bases ns) "test_x"
    = Some (ObjWrapper (ObjCoro Mixin_test_x)) /\
  dict_get (TestCaseMeta_new bases ns) "test_x" <> dict_get ns "test_x".
Proof.
  split_and!; [|reflexivity..|discriminate].
  apply (bool_decide_unpack _). vm_compute. exact I.
Qed.

(** C10, the code at the failing input. [class T(Mixin, TestCase)]
    declares [async def test_x] anew, while [Mixin] has a coroutine function
    [test_x]. The generator yields the inherited method first, and the loop
    body stores its wrapper in the namespace; when the generator then comes
    to the namespace, the entry [test_x] is that wrapper, which is no
    coroutine function, and is skipped. The class ends up with the wrapper
    of the inherited method; the new definition is lost. *)
Theorem override_of_inherited_test_lost :
  let bases := [Mixin; TestCase_base] in
  let ns := [("test_x", ObjCoro T_test_x)] in
  (* first resumption: the inherited method is yielded *)
  gen_next (_iter_methods bases) ns
    = Yield "test_x" (ObjCoro Mixin_test_x) (GenBases [] [TestCase_base]) /\
  (* the loop body overwrites the entry of the namespace *)
  loop_body "test_x" (ObjCoro Mixin_test_x) ns
    = [("test_x", ObjWrapper (ObjCoro Mixin_test_x))] /\
  (* second resumption: no coroutine function is left in the namespace *)
  gen_next (GenBases [] [TestCase_base])
      [("test_x", ObjWrapper (ObjCoro Mixin_test_x))]
    = StopIteration /\
  for_loop (enough_fuel bases ns) (_iter_methods bases) ns
    = Some (Returns [("test_x", ObjWrapper (ObjCoro Mixin_test_x))]) /\
  TestCaseMeta_new bases ns = [("test_x", ObjWrapper (ObjCoro Mixin_test_x))] /\
  dict_get (TestCaseMeta_new bases ns) "test_x"
    <> Some (ObjWrapper (ObjCoro T_test_x)).
Proof. split_and!; [reflexivity..|discriminate]. Qed.

(** A class built by the metaclass holds wrappers, and a subclass of it
    finds no coroutine function in it: an inherited wrapper is not wrapped
    again. *)
Lemma inherited_wrapper_not_rewrapped :
  let base := PyClass "Base" (TestCaseMeta_new [] [("test_y", ObjCoro T_test_y)]) in
  cls_attrs base = [("test_y", ObjWrapper (ObjCoro T_test_y))] /\
  TestCaseMeta_new [base] [("setUp", ObjFunc "T.setUp")]
    = [("setUp", ObjFunc "T.setUp")].
Proof. split; reflexivity. Qed.

(** ** The deadline of a wrapped test *)

Lemma deadline_first_lt `{PyRuntime} (d t : Q) : (d < t)%Q -> deadline_first d t = true.
Proof.
  intros Hlt. unfold deadline_first.
  destruct (Qle_bool t d) eqn:E; [|done].
  apply Qle_bool_iff in E. by apply Qlt_not_le in Hlt.
Qed.

Lemma deadline_first_gt `{PyRuntime} (d t : Q) : (t < d)%Q -> deadline_first d t = false.
Proof.
  intros Hlt. unfold deadline_first.
  assert (Qle_bool t d = true) as -> by (by apply Qle_bool_iff, Qlt_le_weak).
  destruct (Qeq_bool t d) eqn:E; [|done].
  apply Qeq_bool_iff in E. by apply Qlt_not_eq in Hlt.
Qed.

Lemma run_coro_truthy `{PyRuntime} meth self args :
  truthy (resolve_timeout meth) = true ->
  run_coro (wrapper meth self args)
  = AwWaitFor (AwCoro meth self args) (resolve_timeout meth) (tc_loop self).
Proof. intros Ht. unfold wrapper. simpl. by rewrite Ht. Qed.

Lemma run_coro_falsy `{PyRuntime} meth self args :
  truthy (resolve_timeout meth) = false ->
  run_coro (wrapper meth self args) = AwCoro meth self args.
Proof. intros Ht. unfold wrapper. simpl. by rewrite Ht. Qed.

Lemma run_outcome_unfold `{PyRuntime} meth self args :
  run_outcome (wrapper meth self args) =
  match run_until_complete (tc_loop self) (run_coro (wrapper meth self args)) with
  | Returns _ => Returns PyNone
  | Raises e =>
      if is_timeout e then Raises (timed_out self (resolve_timeout meth) e)
      else Raises e
  end.
Proof. reflexivity. Qed.

(** How a call of the wrapper ends when the run on the loop ends as the
    test body does: with no deadline, or with the body done before it. *)
Lemma wrapper_no_deadline `{PyRuntime} meth self args :
  truthy (resolve_timeout meth) = false ->
  run_outcome (wrapper meth self args) =
  match co_result meth with
  | Returns _ => Returns PyNone
  | Raises e =>
      if is_timeout e then Raises (timed_out self (resolve_timeout meth) e)
      else Raises e
  end.
Proof.
  intros Ht. rewrite run_outcome_unfold, run_coro_falsy by done. done.
Qed.

Lemma wrapper_in_time `{PyRuntime} meth self args d :
  truthy (resolve_timeout meth) = true ->
  seconds (resolve_timeout meth) = Some d ->
  (co_duration meth < d)%Q ->
  run_outcome (wrapper meth self args) =
  match co_result meth with
  | Returns _ => Returns PyNone
  | Raises e =>
      if is_timeout e then Raises (timed_out self (resolve_timeout meth) e)
      else Raises e
  end.
Proof.
  intros Ht Hs Hlt. rewrite run_outcome_unfold, run_coro_truthy by done.
  unfold run_until_complete. simpl. rewrite Hs.
  by rewrite deadline_first_gt by done.
Qed.

Lemma wrapper_deadline_exceeded `{PyRuntime} meth self args d :
  truthy (resolve_timeout meth) = true ->
  seconds (resolve_timeout meth) = Some d ->
  (d < co_duration meth)%Q ->
  run_outcome (wrapper meth self args)
  = Raises (timed_out self (resolve_timeout meth) (new_exn AsyncioTimeoutError "")).
Proof.
  intros Ht Hs Hlt. rewrite run_outcome_unfold, run_coro_truthy by done.
  unfold run_until_complete. simpl. rewrite Hs.
  by rewrite deadline_first_lt by done.
Qed.

(** C2. The deadline of a wrapped test is its [__timeout__] when it has
    one, and 60.0 otherwise. With a truthy deadline what runs on the loop is
    [wait_for] around the coroutine, with that deadline, and the deadline is
    enforced: a body done before it ends the call as the body ends (the
    wrapper returns [None], or raises the exception of the body), a body
    that needs longer ends it in the timeout failure made from that
    deadline, whatever the body would have done. With a falsy deadline (0,
    0.0, [None]) it is the coroutine itself that runs, no [wait_for] is
    applied, and the call ends as the body ends however long it takes. *)
Theorem wrapper_deadline `{PyRuntime} (meth : corofn) (self : testcase)
    (args : list pyval) :
  (forall t, co_timeout meth = Some t -> resolve_timeout meth = t) /\
  (co_timeout meth = None -> resolve_timeout meth = PyFloat (60 # 1)) /\
  (truthy (resolve_timeout meth) = true ->
     run_coro (wrapper meth self args)
     = AwWaitFor (AwCoro meth self args) (resolve_timeout meth) (tc_loop self)) /\
  (truthy (resolve_timeout meth) = false ->
     run_coro (wrapper meth self args) = AwCoro meth self args /\
     (forall fut t l, run_coro (wrapper meth self args) <> AwWaitFor fut t l) /\
     run_until_complete (tc_loop self) (run_coro (wrapper meth self args))
     = co_result meth) /\
  truthy PyNone = false /\ truthy (PyInt 0) = false /\
  truthy (PyFloat 0) = false /\ truthy (PyFloat (60 # 1)) = true /\
  (truthy (resolve_timeout meth) = false ->
     (forall v, co_result meth = Returns v ->
        run_outcome (wrapper meth self args) = Returns PyNone) /\
     (forall e, co_result meth = Raises e -> is_timeout e = false ->
        run_outcome (wrapper meth self args) = Raises e)) /\
  (forall d, truthy (resolve_timeout meth) = true ->
     seconds (resolve_timeout meth) = Some d ->
     ((co_duration meth < d)%Q ->
        (forall v, co_result meth = Returns v ->
           run_outcome (wrapper meth self args) = Returns PyNone) /\
        (forall e, co_result meth = Raises e -> is_timeout e = false ->
           run_outcome (wrapper meth self args) = Raises e)) /\
     ((d < co_duration meth)%Q ->
        run_outcome (wrapper meth self args)
        = Raises (timed_out self (resolve_timeout meth)
                    (new_exn AsyncioTimeoutError "")))).
Proof.
  split_and!; try reflexivity.
  - intros t Ht. unfold resolve_timeout. by rewrite Ht.
  - intros Ht. unfold resolve_timeout. by rewrite Ht.
  - apply run_coro_truthy.
  - intros Ht. rewrite run_coro_falsy by done. done.
  - intros Ht. rewrite wrapper_no_deadline by done. split.
    + by intros v ->.
    + by intros e -> ->.
  - intros d Ht Hs. split.
    + intros Hlt. rewrite (wrapper_in_time meth self args d) by done. split.
      * by intros v ->.
      * by intros e -> ->.
    + intros Hlt. by apply (wrapper_deadline_exceeded meth self args d).
Qed.

(** The theorem at tests without [__timeout__]: one that sleeps 0.7
    seconds (deadline 60.0, enforced, and met) and one that hangs for 61
    seconds (the deadline of 60.0 falls); and at tests under a falsy
    deadline: the first under [with_timeout(0)] (no [wait_for]), the
    hanging one under [with_timeout(None)] (its 61 seconds are run in
    full), and one that raises. *)
Lemma wrapper_deadline_witness :
  co_timeout test_slow = None /\
  truthy (resolve_timeout (with_timeout (PyInt 0) test_slow)) = false /\
  run_coro (@wrapper sample_runtime test_slow sample_self [])
  = AwWaitFor (AwCoro test_slow sample_self []) (PyFloat (60 # 1)) 7 /\
  run_coro (@wrapper sample_runtime (with_timeout (PyInt 0) test_slow) sample_self [])
  = AwCoro (with_timeout (PyInt 0) test_slow) sample_self [] /\
  run_outcome (@wrapper sample_runtime test_slow sample_self []) = Returns PyNone /\
  (exists e,
     run_outcome (@wrapper sample_runtime test_hang sample_self []) = Raises e /\
     exc_type e = AssertionError /\
     exc_msg e = "test timed out after 60.0 seconds") /\
  run_outcome (@wrapper sample_runtime (with_timeout PyNone test_hang) sample_self [])
  = Returns PyNone /\
  run_outcome (@wrapper sample_runtime (with_timeout (PyInt 0) test_raises)
                 sample_self []) = Raises boom.
Proof.
  split; [reflexivity|]. split; [reflexivity|]. split_and!.
  - destruct (@wrapper_deadline sample_runtime test_slow sample_self [])
      as (_ & Hdef & Hwrap & _).
    rewrite (Hwrap eq_refl). rewrite (Hdef eq_refl). reflexivity.
  - destruct (@wrapper_deadline sample_runtime
                (with_timeout (PyInt 0) test_slow) sample_self [])
      as (_ & _ & _ & Hoff & _).
    destruct (Hoff eq_refl) as (Hc & _). exact Hc.
  - destruct (@wrapper_deadline sample_runtime test_slow sample_self [])
      as (_ & _ & _ & _ & _ & _ & _ & _ & _ & Hon).
    destruct (Hon (60 # 1)%Q eq_refl eq_refl) as (Hin & _).
    destruct (Hin eq_refl) as (Hret & _). exact (Hret PyNone eq_refl).
  - destruct (@wrapper_deadline sample_runtime test_hang sample_self [])
      as (_ & _ & _ & _ & _ & _ & _ & _ & _ & Hon).
    destruct (Hon (60 # 1)%Q eq_refl eq_refl) as (_ & Hout).
    eexists. split; [exact (Hout eq_refl)|]. split; reflexivity.
  - destruct (@wrapper_deadline sample_runtime
                (with_timeout PyNone test_hang) sample_self [])
      as (_ & _ & _ & _ & _ & _ & _ & _ & Hoff & _).
    destruct (Hoff eq_refl) as (Hret & _). exact (Hret PyNone eq_refl).
  - destruct (@wrapper_deadline sample_runtime
                (with_timeout (PyInt 0) test_raises) sample_self [])
      as (_ & _ & _ & _ & _ & _ & _ & _ & Hoff & _).
    destruct (Hoff eq_refl) as (_ & Hexc). exact (Hexc boom eq_refl eq_refl).
Defined.

(** C3. When the test needs longer than its deadline, the wrapper raises
    [self.failureException]; the message is
    ['test timed out after {} seconds'] with the deadline, the cause is
    [None] and the context is suppressed ([from None]). An exception of the
    test body that is not [asyncio.TimeoutError], raised before the deadline
    or without one, leaves the wrapper as it is. *)
Theorem wrapper_timeout `{PyRuntime} (meth : corofn) (self : testcase)
    (args : list pyval) :
  (forall d, truthy (resolve_timeout meth) = true ->
     seconds (resolve_timeout meth) = Some d ->
     (d < co_duration meth)%Q ->
     exists e, run_outcome (wrapper meth self args) = Raises e /\
       exc_type e = tc_failureException self /\
       exc_msg e = ("test timed out after " ++ format_str (resolve_timeout meth)
                      ++ " seconds")%string /\
       exc_cause e = None /\
       exc_suppress_context e = true) /\
  (forall e, co_result meth = Raises e -> is_timeout e = false ->
     (truthy (resolve_timeout meth) = false \/
      exists d, seconds (resolve_timeout meth) = Some d /\
                (co_duration meth < d)%Q) ->
     run_outcome (wrapper meth self args) = Raises e).
Proof.
  split.
  - intros d Ht Hs Hlt. eexists. split_and!.
    + rewrite run_outcome_unfold, run_coro_truthy by done.
      unfold run_until_complete. simpl. rewrite Hs.
      rewrite deadline_first_lt by done. simpl. reflexivity.
    + reflexivity.
    + reflexivity.
    + reflexivity.
    + reflexivity.
  - intros e He Hnt [Hf|(d & Hs & Hlt)].
    + rewrite run_outcome_unfold, run_coro_falsy by done.
      unfold run_until_complete. simpl. by rewrite He, Hnt.
    + rewrite run_outcome_unfold.
      destruct (truthy (resolve_timeout meth)) eqn:Ht.
      * rewrite run_coro_truthy by done.
        unfold run_until_complete. simpl. rewrite Hs.
        rewrite deadline_first_gt by done. simpl. by rewrite He, Hnt.
      * rewrite run_coro_falsy by done.
        unfold run_until_complete. simpl. by rewrite He, Hnt.
Qed.

(** An [asyncio.TimeoutError] that the test body raises itself is caught
    by the same clause and reported as a timeout of the test, also when no
    deadline is enforced. *)
Lemma wrapper_converts_own_timeout `{PyRuntime} meth self args e :
  truthy (resolve_timeout meth) = false ->
  co_result meth = Raises e -> is_timeout e = true ->
  run_outcome (wrapper meth self args)
  = Raises (timed_out self (resolve_timeout meth) e).
Proof.
  intros Hf He Ht. rewrite run_outcome_unfold, run_coro_falsy by done.
  unfold run_until_complete. simpl. by rewrite He, Ht.
Qed.

(** The theorem at a test that sleeps 0.7 seconds under
    [with_timeout(0.5)], and at a test that raises after 0.1 seconds under
    the default deadline. *)
Lemma wrapper_timeout_witness :
  (1 # 2 < co_duration (with_timeout (PyFloat (1 # 2)) test_slow))%Q /\
  (exists e,
     run_outcome (@wrapper sample_runtime
                    (with_timeout (PyFloat (1 # 2)) test_slow) sample_self [])
     = Raises e /\
     exc_msg e = "test timed out after 0.5 seconds" /\
     exc_cause e = None /\ exc_suppress_context e = true) /\
  run_outcome (@wrapper sample_runtime test_raises sample_self []) = Raises boom.
Proof.
  split; [reflexivity|]. split.
  - destruct (@wrapper_timeout sample_runtime
                (with_timeout (PyFloat (1 # 2)) test_slow) sample_self [])
      as (Hto & _).
    destruct (Hto (1 # 2)%Q eq_refl eq_refl eq_refl)
      as (e & He & _ & Hmsg & Hcause & Hsup).
    exists e. split_and!; [exact He | exact Hmsg | exact Hcause | exact Hsup].
  - destruct (@wrapper_timeout sample_runtime test_raises sample_self [])
      as (_ & Hprop).
    apply Hprop; [reflexivity..|].
    right. exists (60 # 1)%Q. split; reflexivity.
Defined.

(** ** assertRunUnder *)

Lemma try_finally_ok {A} (body : outcome A) : try_finally body (Returns tt) = body.
Proof. reflexivity. Qed.

Lemma exc_context_raise_during handled c msg :
  exc_context (raise_during handled (new_exn c msg)) = handled.
Proof. by destruct handled. Qed.

(** C6 (as amended). When the elapsed time is within [delta], the
    statement ends as the block ends: nothing is raised after a block that
    completes, and the exception of a block that raises propagates. When
    the elapsed time exceeds [delta], an [AssertionError] that reports the
    elapsed time and the bound is raised, also after a block that raised:
    it then replaces the exception of the block, which it keeps as its
    context. *)
Theorem assertRunUnder_outcome `{PyRuntime} (delta st now : Q)
    (block : outcome unit) :
  ((now - st <= delta)%Q -> assertRunUnder delta st now block = block) /\
  ((delta < now - st)%Q ->
     exists e, assertRunUnder delta st now block = Raises e /\
       exc_type e = AssertionError /\
       exc_msg e = ("running block took " ++ format_3f (now - st)
                      ++ "s which is longer than the expected maximum of "
                      ++ format_3f delta ++ "s")%string /\
       exc_context e = raised block).
Proof.
  unfold assertRunUnder. split.
  - intros Hle. apply Qle_bool_iff in Hle. by rewrite Hle.
  - intros Hlt. destruct (Qle_bool (now - st) delta) eqn:E.
    { apply Qle_bool_iff in E. by apply Qlt_not_le in Hlt. }
    simpl. eexists. split; [reflexivity|].
    split_and!; [by destruct block | by destruct block |].
    apply exc_context_raise_during.
Qed.

(** The theorem at [assertRunUnder(0.1)] around a block that takes 0.01
    seconds and raises, and around one that takes 0.2 seconds. *)
Lemma assertRunUnder_outcome_witness :
  ((1 # 100) - 0 <= 1 # 10)%Q /\ (1 # 10 < (2 # 10) - 0)%Q /\
  @assertRunUnder sample_runtime (1 # 10) 0 (1 # 100) (Raises boom) = Raises boom /\
  exists e,
    @assertRunUnder sample_runtime (1 # 10) 0 (2 # 10) (Returns tt) = Raises e /\
    exc_msg e = "running block took 0.200s which is longer than the expected maximum of 0.100s".
Proof.
  assert (H1 : ((1 # 100) - 0 <= 1 # 10)%Q) by (vm_compute; discriminate).
  assert (H2 : (1 # 10 < (2 # 10) - 0)%Q) by reflexivity.
  split; [exact H1|]. split; [exact H2|]. split.
  - exact (proj1 (@assertRunUnder_outcome sample_runtime (1 # 10) 0 (1 # 100)
                    (Raises boom)) H1).
  - destruct (proj2 (@assertRunUnder_outcome sample_runtime (1 # 10) 0 (2 # 10)
                       (Returns tt)) H2) as (e & He & _ & Hmsg & _).
    exists e. split; [exact He|]. rewrite Hmsg. reflexivity.
Defined.

(** C6, counterexample. [assertRunUnder(0.1)] around a block that raises
    [boom] after 0.2 seconds: what propagates is the timing
    [AssertionError], not [boom]. *)
Lemma assertRunUnder_replaces_block_exception :
  exists e,
    @assertRunUnder sample_runtime (1 # 10) 0 (2 # 10) (Raises boom) = Raises e /\
    exc_type e = AssertionError /\ exc_context e = Some boom /\ e <> boom.
Proof. eexists. split_and!; [reflexivity..|discriminate]. Qed.

(** ** assertLoopErrorHandlerCalled *)

Lemma run_actions_keeps acts contexts :
  keeps_handler acts ->
  run_actions acts (Some CapturingHandler) contexts
  = (Some CapturingHandler, contexts ++ handler_calls acts).
Proof.
  revert contexts. induction acts as [|a acts IH]; intros contexts Hk; simpl.
  - by rewrite app_nil_r.
  - destruct a as [ctx|h].
    + rewrite IH.
      * by rewrite <- app_assoc.
      * intros h Hin. apply (Hk h). by right.
    + exfalso. apply (Hk h). by left.
Qed.

Lemma truthy_PyStr s : truthy (PyStr s) = true <-> s <> "".
Proof.
  simpl. destruct (String.eqb s "") eqn:E.
  - apply String.eqb_eq in E. split; [done|]. intros Hne. by destruct Hne.
  - apply String.eqb_neq in E. done.
Qed.

(** On contexts whose messages are text the scan ends normally, and finds
    a context exactly when one has a message that is not empty and that the
    pattern matches. *)
Lemma scan_contexts_text `{PyRuntime} msg_re (contexts : list context) :
  Forall message_is_text contexts ->
  exists b, scan_contexts msg_re contexts = Returns b /\
    (b = true <->
     exists ctx, ctx ∈ contexts /\ nonempty_message_matches msg_re ctx).
Proof.
  induction 1 as [|ctx contexts Htext _ IH]; simpl.
  - exists false. split; [done|]. split; [done|].
    intros (ctx & Hin & _). by apply elem_of_nil in Hin.
  - destruct IH as (b & Hscan & Hb).
    assert (Hrest : forall b', b' = b ->
              (~ nonempty_message_matches msg_re ctx) ->
              b' = true <->
              exists ctx0, ctx0 ∈ ctx :: contexts /\
                           nonempty_message_matches msg_re ctx0).
    { intros b' -> Hno. rewrite Hb. split.
      - intros (c & Hin & Hm). exists c. split; [by right | done].
      - intros (c & Hin & Hm). apply elem_of_cons in Hin as [->|Hin]; [done|].
        by exists c. }
    unfold ctx_get_message, message_is_text in *.
    destruct (ctx !! "message") as [[| | |s]|] eqn:Hmsg; try done.
    + simpl. exists b. split; [done|]. apply Hrest; [done|].
      intros (s & Hs & _). rewrite Hmsg in Hs. discriminate.
    + destruct (truthy (PyStr s)) eqn:Ht.
      * destruct (re_search msg_re s) eqn:Hre.
        -- exists true. split; [done|]. split; [|done]. intros _.
           exists ctx. split; [by left|]. exists s.
           split_and!; [done| by apply truthy_PyStr | done].
        -- exists b. split; [done|]. apply Hrest; [done|].
           intros (s' & Hs & _ & Hre'). rewrite Hmsg in Hs.
           injection Hs as ->. congruence.
      * exists b. split; [done|]. apply Hrest; [done|].
        intros (s' & Hs & Hne & _). rewrite Hmsg in Hs. injection Hs as ->.
        apply truthy_PyStr in Hne. congruence.
    + simpl. exists b. split; [done|]. apply Hrest; [done|].
      intros (s & Hs & _). rewrite Hmsg in Hs. discriminate.
Qed.

(** C9 (as amended). The handler that was installed on entry is
    installed again on exit, however the statement ends; while the block
    runs the capturing handler is installed, and captures every context the
    block passes to the loop unless the block installs a handler itself; an
    exception of the block propagates. After a block that completes, on
    contexts whose messages are text, [AssertionError] is raised if and only
    if no captured context has a message that is not empty and that the
    pattern matches by search; otherwise the statement completes. *)
Theorem assertLoopErrorHandlerCalled_outcome `{PyRuntime} (msg_re : string)
    (installed : option handler) (blk : block) :
  let r := assertLoopErrorHandlerCalled msg_re installed blk in
  hr_handler r = installed /\
  (keeps_handler (blk_actions blk) ->
     hr_contexts r = handler_calls (blk_actions blk)) /\
  (forall e, blk_outcome blk = Raises e -> hr_outcome r = Raises e) /\
  (blk_outcome blk = Returns tt ->
   Forall message_is_text (hr_contexts r) ->
     ((exists e, hr_outcome r = Raises e) <->
      ~ exists ctx, ctx ∈ hr_contexts r /\ nonempty_message_matches msg_re ctx) /\
     (forall e, hr_outcome r = Raises e ->
        exc_type e = AssertionError /\
        exc_msg e = ("no message matching " ++ format_repr msg_re
           ++ " was logged with loop.call_exception_handler()")%string) /\
     (hr_outcome r = Returns tt <->
      exists ctx, ctx ∈ hr_contexts r /\ nonempty_message_matches msg_re ctx)).
Proof.
  unfold assertLoopErrorHandlerCalled.
  destruct (run_actions (blk_actions blk) (Some CapturingHandler) [])
    as [h contexts] eqn:Hrun.
  cbn [hr_handler hr_contexts hr_outcome]. split_and!.
  - done.
  - intros Hk. rewrite run_actions_keeps in Hrun by done. by injection Hrun.
  - intros e ->. done.
  - intros -> Htext. rewrite try_finally_ok.
    destruct (scan_contexts_text msg_re contexts Htext) as (b & -> & Hb).
    destruct b.
    + assert (Hex := proj1 Hb eq_refl). split_and!.
      * split; [by intros (e & ?) | by intros Hno].
      * by intros e.
      * done.
    + assert (Hno : ~ exists ctx, ctx ∈ contexts /\
                       nonempty_message_matches msg_re ctx).
      { intros Hex. by apply Hb in Hex. }
      split_and!.
      * split; [done | intros _; by eexists].
      * intros e [= <-]. done.
      * split; [done | by intros Hex].
Qed.

(** The theorem at a block during which the loop reports a failed task
    whose message contains [boom], with a handler of the user installed
    before. *)
Lemma assertLoopErrorHandlerCalled_outcome_witness :
  blk_outcome boom_block = Returns tt /\
  Forall message_is_text
    (hr_contexts (@assertLoopErrorHandlerCalled sample_runtime "boom"
                    (Some (UserHandler 3)) boom_block)) /\
  hr_handler (@assertLoopErrorHandlerCalled sample_runtime "boom"
                (Some (UserHandler 3)) boom_block) = Some (UserHandler 3) /\
  hr_outcome (@assertLoopErrorHandlerCalled sample_runtime "boom"
                (Some (UserHandler 3)) boom_block) = Returns tt.
Proof.
  assert (Htext : Forall message_is_text
            (hr_contexts (@assertLoopErrorHandlerCalled sample_runtime "boom"
                            (Some (UserHandler 3)) boom_block))).
  { constructor; [vm_compute; exact I | constructor]. }
  destruct (@assertLoopErrorHandlerCalled_outcome sample_runtime "boom"
              (Some (UserHandler 3)) boom_block)
    as (Hrestore & _ & _ & Hdone).
  destruct (Hdone eq_refl Htext) as (_ & _ & Hret).
  split; [reflexivity|]. split; [exact Htext|]. split; [exact Hrestore|].
  apply Hret. exists boom_context. split; [by left|].
  exists "Task exception was never retrieved: kaboom".
  split_and!; [reflexivity | discriminate | reflexivity].
Defined.

(** C9, counterexample. The loop reports an error whose message is the
    empty string, and the pattern is the empty pattern, which matches it
    (as a search): a captured context has a message that the pattern
    matches, and yet [AssertionError] is raised; the test [msg and ...]
    leaves an empty message out. *)
Lemma assertLoopErrorHandlerCalled_empty_message :
  let r := @assertLoopErrorHandlerCalled sample_runtime "" None silent_block in
  blk_outcome silent_block = Returns tt /\
  (exists ctx, ctx ∈ hr_contexts r /\ @message_matches sample_runtime "" ctx) /\
  exists e, hr_outcome r = Raises e /\ exc_type e = AssertionError.
Proof.
  split; [reflexivity|]. split.
  - exists silent_context. split; [by left|]. exists "". split; reflexivity.
  - eexists. split; reflexivity.
Qed.

(** ** The default cluster *)

Ltac unfold_M :=
  unfold _start_cluster, mbind, M_bind, mret, M_ret, call, new_object,
    set_default_cluster in *; simpl in *.

(** A call that returns leaves the cluster it returns in
    [_default_cluster]. *)
Lemma start_default_cluster_sets faults s p c p1 :
  _start_default_cluster faults s p = (Returns c, p1) ->
  default_cluster p1 = Some c.
Proof.
  unfold _start_default_cluster.
  destruct (default_cluster p) as [c0|] eqn:Hd.
  - intros [= <- <-]. done.
  - destruct (env_truthy (environ_PGHOST p)); unfold_M;
      repeat (match goal with
              | |- context [faults ?ev] => destruct (faults ev)
              end; simpl);
      try discriminate; by intros [= <- <-].
Qed.

(** Once [_default_cluster] is set, a call returns it and does nothing
    else, whatever the settings. *)
Lemma start_default_cluster_cached faults s p c :
  default_cluster p = Some c ->
  _start_default_cluster faults s p = (Returns c, p).
Proof. intros Hd. unfold _start_default_cluster. by rewrite Hd. Qed.

(** C4. In a fresh process, if the first call returns a cluster, then a
    second call, whatever its settings, returns the same cluster and leaves
    the process as it is: no call into the cluster is made. Every
    [start] in the trace is a start of that cluster with the settings of the
    first call: when [PGHOST] is not set the trace is the construction of a
    [TempCluster], [init], [trust_local_connections], one
    [start(port='dynamic', server_settings=s1)] and the [atexit]
    registration; when it is set, the construction of a [RunningCluster]
    only. *)
Theorem default_cluster_singleton (faults : cluster_event -> option exn)
    (pghost : option string) (s1 s2 : settings) (c1 : nat) (p1 : process) :
  _start_default_cluster faults s1 (initial_process pghost) = (Returns c1, p1) ->
  _start_default_cluster faults s2 p1 = (Returns c1, p1) /\
  (forall c port s, EvStart c port s ∈ trace p1 -> c = c1 /\ s = s1) /\
  (env_truthy pghost = false ->
     trace p1 = [EvConstruct c1 TempCluster ∅; EvInit c1;
                 EvTrustLocalConnections c1; EvStart c1 "dynamic" s1;
                 EvAtexitRegister c1]) /\
  (env_truthy pghost = true -> trace p1 = [EvConstruct c1 RunningCluster ∅]).
Proof.
  intros Hfirst.
  split.
  { apply start_default_cluster_cached.
    by eapply start_default_cluster_sets. }
  assert (Htrace :
    trace p1 = if env_truthy pghost
               then [EvConstruct c1 RunningCluster ∅]
               else [EvConstruct c1 TempCluster ∅; EvInit c1;
                     EvTrustLocalConnections c1; EvStart c1 "dynamic" s1;
                     EvAtexitRegister c1]).
  { revert Hfirst. unfold _start_default_cluster, initial_process. simpl.
    destruct (env_truthy pghost); unfold_M;
      repeat (match goal with
              | |- context [faults ?ev] => destruct (faults ev)
              end; simpl);
      try discriminate; by intros [= <- <-]. }
  split_and!.
  - intros c port s Hin. rewrite Htrace in Hin.
    destruct (env_truthy pghost).
    + apply list_elem_of_singleton in Hin. discriminate.
    + repeat (apply elem_of_cons in Hin as [Hin|Hin]; [try discriminate|]).
      * by injection Hin as -> _ ->.
      * by apply elem_of_nil in Hin.
  - intros Hf. by rewrite Htrace, Hf.
  - intros Ht. by rewrite Htrace, Ht.
Qed.

(** The theorem at a process without [PGHOST] in which a
    [ClusterTestCase] class is set up first and a [ProxiedClusterTestCase]
    class second: the second gets the cluster of the first, started without
    its [listen_addresses]. *)
Lemma default_cluster_singleton_witness :
  let p1 := (setup_cluster no_faults ClusterTestCase (initial_process None)).2 in
  setup_cluster no_faults ClusterTestCase (initial_process None) = (Returns 0%nat, p1) /\
  setup_cluster no_faults ProxiedClusterTestCase p1 = (Returns 0%nat, p1) /\
  trace p1 = [EvConstruct 0 TempCluster ∅; EvInit 0; EvTrustLocalConnections 0;
              EvStart 0 "dynamic" {[ "log_connections" := "on" ]};
              EvAtexitRegister 0].
Proof.
  intros p1.
  assert (Hfirst : _start_default_cluster no_faults
                     ClusterTestCase_get_server_settings (initial_process None)
                   = (Returns 0%nat, p1)) by reflexivity.
  destruct (default_cluster_singleton no_faults None
              ClusterTestCase_get_server_settings
              ProxiedClusterTestCase_get_server_settings 0%nat p1 Hfirst)
    as (Hsecond & _ & Htemp & _).
  split; [exact Hfirst|]. split; [exact Hsecond|]. exact (Htemp eq_refl).
Defined.

(** ** Connection specs *)

(** The dictionary that the cluster hands out is a new one: it is not the
    one the cluster keeps, it has the same entries, and every dictionary
    that existed is as it was. *)
Lemma Cluster_get_connection_spec_copy cluster (h : heap) spec :
  h !! cluster = Some spec ->
  exists r, Cluster_get_connection_spec cluster h = Some (r, <[r := spec]> h) /\
            h !! r = None /\ r <> cluster.
Proof.
  intros Hc. unfold Cluster_get_connection_spec. rewrite Hc.
  exists (fresh (dom h)). split; [done|].
  assert (h !! fresh (dom h) = None) as Hfresh.
  { apply not_elem_of_dom, is_fresh. }
  split; [done|]. intros Heq. rewrite Heq in Hfresh. congruence.
Qed.

Lemma get_connection_spec_fresh cls (h : heap) r h1 :
  get_connection_spec cls h = Some (r, h1) ->
  h !! r = None /\ is_Some (h1 !! r) /\
  (forall r0, r0 <> r -> h1 !! r0 = h !! r0).
Proof.
  unfold get_connection_spec, ClusterTestCase_get_connection_spec,
    ProxiedClusterTestCase_get_connection_spec.
  destruct (h !! tcls_cluster cls) as [spec|] eqn:Hc.
  2:{ unfold Cluster_get_connection_spec. rewrite Hc.
      by destruct (tcls_kind cls). }
  destruct (Cluster_get_connection_spec_copy _ _ _ Hc) as (r' & -> & Hnone & Hne).
  destruct (tcls_kind cls).
  - intros [= <- <-]. split; [done|]. split.
    + rewrite lookup_insert_eq. by eexists.
    + intros r0 Hr0. by rewrite lookup_insert_ne.
  - destruct (tcls_proxy cls) as [px|]; [|done].
    intros [= <- <-]. split; [done|]. unfold heap_setitem. split.
    + rewrite !lookup_alter_eq, lookup_insert_eq. by eexists.
    + intros r0 Hr0. rewrite !lookup_alter_ne by done.
      by rewrite lookup_insert_ne.
Qed.

Lemma get_connection_spec_ready cls (h : heap) :
  class_ready cls h -> is_Some (get_connection_spec cls h).
Proof.
  intros [[spec Hc] Hpx].
  unfold get_connection_spec, ClusterTestCase_get_connection_spec,
    ProxiedClusterTestCase_get_connection_spec.
  destruct (Cluster_get_connection_spec_copy _ _ _ Hc) as (r' & -> & _).
  destruct (tcls_kind cls); [by eexists|].
  destruct (Hpx eq_refl) as [px ->]. by eexists.
Qed.

(** One [connect] or [create_pool]: it returns, and every dictionary that
    existed before is as it was. *)
Lemma run_op_frame cls op (h : heap) :
  class_ready cls h ->
  exists c h', run_op cls op h = Some (c, h') /\
    forall r0 d0, h !! r0 = Some d0 -> h' !! r0 = Some d0.
Proof.
  intros Hready.
  destruct (get_connection_spec_ready cls h Hready) as [[r h1] Hget].
  destruct (get_connection_spec_fresh cls h r h1 Hget) as (Hnone & [d Hd] & Hframe).
  assert (forall kwargs r0 d0, h !! r0 = Some d0 ->
            heap_update r kwargs h1 !! r0 = Some d0) as Hkeep.
  { intros kwargs r0 d0 H0. unfold heap_update.
    assert (r0 <> r) by (intros ->; congruence).
    rewrite lookup_alter_ne by done. by rewrite Hframe. }
  destruct op as [kwargs|pool_class kwargs]; simpl;
    unfold ClusterTestCase_connect, ClusterTestCase_create_pool;
    rewrite Hget; unfold heap_update at 1;
    rewrite lookup_alter_eq, Hd; simpl; eauto.
Qed.

Lemma run_ops_frame cls ops : forall (h : heap),
  class_ready cls h ->
  exists cs h', run_ops cls ops h = Some (cs, h') /\
    List.length cs = List.length ops /\
    forall r0 d0, h !! r0 = Some d0 -> h' !! r0 = Some d0.
Proof.
  induction ops as [|op ops IH]; intros h Hready; simpl.
  - by exists [], h.
  - destruct (run_op_frame cls op h Hready) as (c & h1 & -> & Hframe1).
    assert (class_ready cls h1) as Hready1.
    { destruct Hready as [[spec Hc] Hpx]. split; [|done].
      exists spec. by apply Hframe1. }
    destruct (IH h1 Hready1) as (cs & h2 & -> & Hlen & Hframe2).
    exists (c :: cs), h2. split; [done|]. split; [simpl; by rewrite Hlen|].
    intros r0 d0 H0. by apply Hframe2, Hframe1.
Qed.

(** What [connect] passes on: the spec of the cluster with the overrides
    merged over it. *)
Lemma connect_merges cls kwargs (h : heap) spec :
  tcls_kind cls = ClusterTestCase -> h !! tcls_cluster cls = Some spec ->
  exists h', ClusterTestCase_connect cls kwargs h
    = Some (unpack (fun d => CallConnect d (tcls_loop cls)) (kwargs ∪ spec), h').
Proof.
  intros Hk Hc. unfold ClusterTestCase_connect, get_connection_spec,
    ClusterTestCase_get_connection_spec. rewrite Hk.
  destruct (Cluster_get_connection_spec_copy _ _ _ Hc) as (r & -> & _).
  unfold heap_update. rewrite lookup_alter_eq, lookup_insert_eq. simpl.
  by eexists.
Qed.

(** The copy matters: [update] on the dictionary that the cluster keeps
    would change it. *)
Lemma update_through_alias_mutates cls kwargs (h : heap) spec :
  h !! tcls_cluster cls = Some spec ->
  heap_update (tcls_cluster cls) kwargs h !! tcls_cluster cls
  = Some (kwargs ∪ spec).
Proof. intros Hc. unfold heap_update. by rewrite lookup_alter_eq, Hc. Qed.

(** C8. [ClusterTestCase.get_connection_spec] returns a dictionary that
    is not the one the cluster keeps and that has its entries; and after
    any sequence of [connect] and [create_pool] calls with any overrides,
    all of which return, the dictionary that the cluster keeps is as it
    was. *)
Theorem cluster_spec_never_mutated (cls : test_class) (ops : list spec_op)
    (h : heap) (spec : gmap string pyval) :
  tcls_kind cls = ClusterTestCase ->
  h !! tcls_cluster cls = Some spec ->
  (exists r h1, ClusterTestCase_get_connection_spec cls h = Some (r, h1) /\
     r <> tcls_cluster cls /\ h !! r = None /\
     h1 !! r = Some spec /\ h1 !! tcls_cluster cls = Some spec) /\
  (exists calls h', run_ops cls ops h = Some (calls, h') /\
     List.length calls = List.length ops /\
     h' !! tcls_cluster cls = Some spec).
Proof.
  intros Hk Hc. split.
  - unfold ClusterTestCase_get_connection_spec.
    destruct (Cluster_get_connection_spec_copy _ _ _ Hc) as (r & -> & Hnone & Hne).
    exists r, (<[r := spec]> h). split_and!; [done..| |].
    + by rewrite lookup_insert_eq.
    + by rewrite lookup_insert_ne.
  - destruct (run_ops_frame cls ops h) as (cs & h' & Hrun & Hlen & Hframe).
    { split; [by eexists|]. rewrite Hk. discriminate. }
    exists cs, h'. split_and!; [done..|]. by apply Hframe.
Qed.

(** The theorem at a [connect(database='test')] followed by a
    [create_pool(port=1, min_size=2)]: the calls get the merged specs, the
    cluster keeps its own. *)
Lemma cluster_spec_never_mutated_witness :
  let ops := [OpConnect {[ "database" := PyStr "test" ]};
              OpCreatePool "Pool" {[ "port" := PyInt 1; "min_size" := PyInt 2 ]}] in
  tcls_kind sample_class = ClusterTestCase /\
  sample_heap !! tcls_cluster sample_class = Some sample_spec /\
  exists calls h', run_ops sample_class ops sample_heap = Some (calls, h') /\
    List.length calls = 2%nat /\
    h' !! tcls_cluster sample_class = Some sample_spec.
Proof.
  intros ops.
  assert (Hc : sample_heap !! tcls_cluster sample_class = Some sample_spec)
    by reflexivity.
  split; [reflexivity|]. split; [exact Hc|].
  destruct (cluster_spec_never_mutated sample_class ops sample_heap sample_spec
              eq_refl Hc) as (_ & calls & h' & Hrun & Hlen & Hkeep).
  exists calls, h'. split; [exact Hrun|]. split; [exact Hlen | exact Hkeep].
Defined.

(** C5. On a proxied test class, [get_connection_spec] returns a
    dictionary whose [host] and [port] are the listening address and port of
    the proxy, whatever the cluster has there; its other entries are those
    of the cluster; and the dictionary that the cluster keeps is as it was,
    so that the same holds of every later call. *)
Theorem proxied_spec_points_at_proxy (cls : test_class) (h : heap)
    (spec : gmap string pyval) (px : proxy) :
  h !! tcls_cluster cls = Some spec ->
  tcls_proxy cls = Some px ->
  exists r h' d,
    ProxiedClusterTestCase_get_connection_spec cls h = Some (r, h') /\
    h' !! r = Some d /\
    d !! "host" = Some (listening_addr px) /\
    d !! "port" = Some (listening_port px) /\
    (spec !! "host" <> Some (listening_addr px) -> d !! "host" <> spec !! "host") /\
    (spec !! "port" <> Some (listening_port px) -> d !! "port" <> spec !! "port") /\
    (forall k, k <> "host" -> k <> "port" -> d !! k = spec !! k) /\
    h' !! tcls_cluster cls = Some spec.
Proof.
  intros Hc Hpx. unfold ProxiedClusterTestCase_get_connection_spec.
  destruct (Cluster_get_connection_spec_copy _ _ _ Hc) as (r & -> & Hnone & Hne).
  rewrite Hpx. eexists r, _, _. split; [reflexivity|].
  unfold heap_setitem.
  split.
  { rewrite !lookup_alter_eq, lookup_insert_eq. simpl. reflexivity. }
  assert (Hhost : (<["port" := listening_port px]>
                     (<["host" := listening_addr px]> spec)) !! "host"
                  = Some (listening_addr px)).
  { rewrite lookup_insert_ne by done. by rewrite lookup_insert_eq. }
  assert (Hport : (<["port" := listening_port px]>
                     (<["host" := listening_addr px]> spec)) !! "port"
                  = Some (listening_port px)) by (by rewrite lookup_insert_eq).
  split_and!; [done | done | | | |].
  - intros Hd. rewrite Hhost. congruence.
  - intros Hd. rewrite Hport. congruence.
  - intros k Hk1 Hk2. by rewrite !lookup_insert_ne.
  - rewrite !lookup_alter_ne by done. by rewrite lookup_insert_ne.
Qed.

(** The theorem at a cluster that listens on a socket directory and port
    5432, behind a proxy on 127.0.0.1:40001. *)
Lemma proxied_spec_points_at_proxy_witness :
  sample_heap !! tcls_cluster sample_proxied_class = Some sample_spec /\
  tcls_proxy sample_proxied_class = Some sample_proxy /\
  exists r h' d,
    get_connection_spec sample_proxied_class sample_heap = Some (r, h') /\
    h' !! r = Some d /\
    d !! "host" = Some (PyStr "127.0.0.1") /\ d !! "port" = Some (PyInt 40001).
Proof.
  assert (Hc : sample_heap !! tcls_cluster sample_proxied_class = Some sample_spec)
    by reflexivity.
  split; [exact Hc|]. split; [reflexivity|].
  destruct (proxied_spec_points_at_proxy sample_proxied_class sample_heap
              sample_spec sample_proxy Hc eq_refl)
    as (r & h' & d & Hget & Hd & Hhost & Hport & _).
  exists r, h', d. split; [exact Hget|]. split; [exact Hd|].
  split; [exact Hhost | exact Hport].
Defined.

(** ** Class teardown *)

(** C7 (as amended). Class teardown of a proxied test class stops the
    proxy first, on the loop of the class, and then runs the teardown of the
    superclass: the loop is closed after the proxy has stopped, never
    before; and if stopping the proxy raises, the teardown of the
    superclass does not run. *)
Theorem proxied_teardown_order (cls : test_class) :
  let tr := (ProxiedClusterTestCase_tearDownClass cls (Returns tt)).1 in
  tr = EvProxyStop (tcls_loop cls) :: TestCase_tearDownClass cls /\
  (forall ev, ev ∈ TestCase_tearDownClass cls ->
     precedes (EvProxyStop (tcls_loop cls)) ev tr) /\
  (forall ev, ev ∈ TestCase_tearDownClass cls ->
     ~ precedes ev (EvProxyStop (tcls_loop cls)) tr) /\
  (forall e, ProxiedClusterTestCase_tearDownClass cls (Raises e)
             = ([EvProxyStop (tcls_loop cls)], Raises e)).
Proof.
  simpl. split_and!; [done | | | done].
  - intros ev Hin. apply list_elem_of_lookup in Hin as [j Hj].
    exists 0%nat, (S j). split_and!; [done | done | lia].
  - intros ev Hin (i & j & Hi & Hj & Hlt).
    destruct j as [|[|[|j]]]; simpl in Hj; try discriminate; try lia.
Qed.

(** C7, counterexample. In the teardown of the sample proxied class the
    closing of the loop does not come before the stopping of the proxy; it
    comes after it. *)
Lemma proxied_teardown_stops_proxy_first :
  let tr := (ProxiedClusterTestCase_tearDownClass sample_proxied_class
               (Returns tt)).1 in
  tr = [EvProxyStop 7; EvLoopClose 7; EvSetEventLoop None] /\
  ~ precedes (EvLoopClose 7) (EvProxyStop 7) tr /\
  precedes (EvProxyStop 7) (EvLoopClose 7) tr.
Proof.
  simpl. split_and!; [done | |].
  - intros (i & j & Hi & Hj & Hlt).
    destruct j as [|[|[|j]]]; simpl in Hj; try discriminate; lia.
  - exists 0%nat, 1%nat. split_and!; [done | done | lia].
Qed.

(* ===================================================================== *)
(** * Part III: further properties of the module                          *)
(* ===================================================================== *)

(** ** Class construction *)

(** The loop of [__new__] assigns to the namespace while the generator
    iterates [ns.items()]. It nevertheless ends, given enough fuel, and
    never with the [RuntimeError] of a dictionary that changed size during
    iteration: the second loop only assigns to keys that are there. *)
Theorem TestCaseMeta_new_returns (bases : list pyclass) (ns : dict) (fuel : nat) :
  NoDup (dict_keys ns) -> (enough_fuel bases ns <= fuel)%nat ->
  for_loop fuel (_iter_methods bases) ns
    = Some (Returns (TestCaseMeta_new bases ns)) /\
  forall e, for_loop fuel (_iter_methods bases) ns <> Some (Raises e).
Proof.
  intros Hnd Hfuel. rewrite (for_loop_iter_methods bases ns fuel Hnd Hfuel).
  split; [done|]. intros e. discriminate.
Qed.

Lemma TestCaseMeta_new_returns_witness :
  for_loop 10 (_iter_methods [Mixin; TestCase_base])
    [("test_y", ObjCoro T_test_y); ("setUp", ObjFunc "T.setUp")]
  = Some (Returns [("test_y", ObjWrapper (ObjCoro T_test_y));
                   ("setUp", ObjFunc "T.setUp");
                   ("test_x", ObjWrapper (ObjCoro Mixin_test_x))]).
Proof.
  assert (Hnd : NoDup (dict_keys
            [("test_y", ObjCoro T_test_y); ("setUp", ObjFunc "T.setUp")])).
  { apply (bool_decide_unpack _). vm_compute. exact I. }
  assert (Hfuel : (enough_fuel [Mixin; TestCase_base]
            [("test_y", ObjCoro T_test_y); ("setUp", ObjFunc "T.setUp")] <= 10)%nat).
  { vm_compute. lia. }
  exact (proj1 (TestCaseMeta_new_returns _ _ 10%nat Hnd Hfuel)).
Defined.

Lemma dict_keys_fmap_wrap (d : dict) : dict_keys (wrap_entry <$> d) = dict_keys d.
Proof.
  unfold dict_keys. rewrite <- list_fmap_compose. by apply list_fmap_ext.
Qed.

Lemma TestCaseMeta_new_unfold bases (ns : dict) :
  NoDup (dict_keys ns) ->
  TestCaseMeta_new bases ns = wrap_entry <$> new_over_bases bases ns.
Proof.
  intros Hnd. unfold TestCaseMeta_new.
  by rewrite new_over_ns_all by (by apply new_over_bases_NoDup).
Qed.

(** After construction, no entry of the class namespace with the [test_]
    prefix is a coroutine function: the test runner, which calls the
    attribute and does not await, never gets one. *)
Theorem TestCaseMeta_new_leaves_no_coroutine_test (bases : list pyclass)
    (ns : dict) (k : string) (v : pyobj) :
  NoDup (dict_keys ns) ->
  (k, v) ∈ TestCaseMeta_new bases ns ->
  startswith_test k = true ->
  iscoroutinefunction v = false.
Proof.
  intros Hnd Hin Hp. rewrite TestCaseMeta_new_unfold in Hin by done.
  apply list_elem_of_fmap in Hin as ([k0 v0] & Heq & _).
  unfold wrap_entry, wrap_val in Heq. simpl in Heq.
  injection Heq as -> ->. rewrite Hp. simpl.
  by destruct (iscoroutinefunction v0) eqn:E.
Qed.

Lemma TestCaseMeta_new_leaves_no_coroutine_test_witness :
  iscoroutinefunction (ObjWrapper (ObjCoro Mixin_test_x)) = false.
Proof.
  apply (TestCaseMeta_new_leaves_no_coroutine_test [Mixin; TestCase_base]
           [("test_y", ObjCoro T_test_y); ("setUp", ObjFunc "T.setUp")]
           "test_x").
  - apply (bool_decide_unpack _). vm_compute. exact I.
  - vm_compute. do 2 right. left.
  - reflexivity.
Defined.

Lemma new_over_dir_keys attrs : forall (ns : dict),
  exists added,
    dict_keys (new_over_dir attrs ns) = dict_keys ns ++ added /\
    forall k, k ∈ added ->
      startswith_test k = true /\ (k ∉ dict_keys ns) /\
      exists m, (k, m) ∈ attrs /\ iscoroutinefunction m = true.
Proof.
  induction attrs as [|[n m] attrs IH]; intros ns.
  - exists []. split; [by rewrite app_nil_r|]. intros k Hk.
    by apply elem_of_nil in Hk.
  - assert (Hlift : forall (added : list string) (ns0 : dict),
              (forall k, k ∈ added ->
                 startswith_test k = true /\ (k ∉ dict_keys ns0) /\
                 exists m0, (k, m0) ∈ attrs /\ iscoroutinefunction m0 = true) ->
              forall k, k ∈ added ->
                startswith_test k = true /\ (k ∉ dict_keys ns0) /\
                exists m0, (k, m0) ∈ (n, m) :: attrs /\
                           iscoroutinefunction m0 = true).
    { intros added ns0 H k Hk. destruct (H k Hk) as (? & ? & m0 & ? & ?).
      split_and!; [done..|]. exists m0. split; [by right | done]. }
    destruct (startswith_test n && iscoroutinefunction m) eqn:Hc.
    + rewrite new_over_dir_yield by done.
      apply andb_true_iff in Hc as [Hp Hco].
      destruct (IH (loop_body n m ns)) as (added & Hkeys & Hadded).
      unfold loop_body in *. rewrite dict_keys_set in Hkeys, Hadded.
      destruct (decide (n ∈ dict_keys ns)) as [Hin|Hnin].
      * exists added. split; [done|]. by apply Hlift.
      * exists (n :: added). split; [by rewrite Hkeys, <- app_assoc|].
        intros k Hk. apply elem_of_cons in Hk as [->|Hk].
        -- split_and!; [done..|]. exists m. split; [by left | done].
        -- destruct (Hadded k Hk) as (? & Hnotin & m0 & ? & ?).
           split_and!; [done| |].
           ++ intros Hin. apply Hnotin. apply elem_of_app. by left.
           ++ exists m0. split; [by right | done].
    + rewrite new_over_dir_skip by done.
      destruct (IH ns) as (added & Hkeys & Hadded).
      exists added. split; [done|]. by apply Hlift.
Qed.

Lemma new_over_bases_keys bases : forall (ns : dict),
  exists added,
    dict_keys (new_over_bases bases ns) = dict_keys ns ++ added /\
    forall k, k ∈ added ->
      startswith_test k = true /\ (k ∉ dict_keys ns) /\ base_has_coro bases k.
Proof.
  induction bases as [|b bases IH]; intros ns; simpl.
  - exists []. split; [by rewrite app_nil_r|]. intros k Hk.
    by apply elem_of_nil in Hk.
  - destruct (new_over_dir_keys (cls_attrs b) ns) as (add1 & Hk1 & Ha1).
    destruct (IH (new_over_dir (cls_attrs b) ns)) as (add2 & Hk2 & Ha2).
    exists (add1 ++ add2). split; [by rewrite Hk2, Hk1, <- app_assoc|].
    intros k Hk. apply elem_of_app in Hk as [Hk|Hk].
    + destruct (Ha1 k Hk) as (? & ? & m & ? & ?). split_and!; [done..|].
      exists b, m. split_and!; [by left | done..].
    + destruct (Ha2 k Hk) as (? & Hnotin & b' & m & ? & ? & ?).
      split_and!; [done| |].
      * intros Hin. apply Hnotin. rewrite Hk1. apply elem_of_app. by left.
      * exists b', m. split_and!; [by right | done..].
Qed.

(** Construction removes no name from the namespace and moves none: the
    names of the class are those of the namespace, in their order, followed
    by names that are new; each new name has the [test_] prefix and is the
    name of a coroutine function of some base. *)
Theorem TestCaseMeta_new_keys (bases : list pyclass) (ns : dict) :
  NoDup (dict_keys ns) ->
  NoDup (dict_keys (TestCaseMeta_new bases ns)) /\
  exists added,
    dict_keys (TestCaseMeta_new bases ns) = dict_keys ns ++ added /\
    forall k, k ∈ added ->
      startswith_test k = true /\ (k ∉ dict_keys ns) /\ base_has_coro bases k.
Proof.
  intros Hnd. rewrite TestCaseMeta_new_unfold by done.
  rewrite dict_keys_fmap_wrap. split; [by apply new_over_bases_NoDup|].
  apply new_over_bases_keys.
Qed.

Lemma TestCaseMeta_new_keys_witness :
  exists added,
    dict_keys (TestCaseMeta_new [Mixin; TestCase_base]
                 [("test_y", ObjCoro T_test_y); ("setUp", ObjFunc "T.setUp")])
    = ["test_y"; "setUp"] ++ added.
Proof.
  destruct (TestCaseMeta_new_keys [Mixin; TestCase_base]
              [("test_y", ObjCoro T_test_y); ("setUp", ObjFunc "T.setUp")])
    as (_ & added & Hkeys & _).
  - apply (bool_decide_unpack _). vm_compute. exact I.
  - exists added. exact Hkeys.
Defined.

Lemma new_over_bases_noop bases : forall (ns : dict),
  (forall k, startswith_test k = true -> ~ base_has_coro bases k) ->
  new_over_bases bases ns = ns.
Proof.
  induction bases as [|b bases IH]; intros ns Hno; simpl; [done|].
  assert (new_over_dir (cls_attrs b) ns = ns) as ->.
  { assert (forall k m, (k, m) ∈ cls_attrs b ->
              startswith_test k && iscoroutinefunction m = false) as Hb.
    { intros k m Hin. destruct (startswith_test k) eqn:Hp; [|done].
      destruct (iscoroutinefunction m) eqn:Hc; [|done].
      exfalso. apply (Hno k Hp). exists b, m. split_and!; [by left | done..]. }
    induction (cls_attrs b) as [|[n m] attrs IHa]; [done|].
    rewrite new_over_dir_skip by (apply Hb; by left).
    apply IHa. intros k m' Hin. apply Hb. by right. }
  apply IH. intros k Hp (b' & m & Hb' & Hin & Hc).
  apply (Hno k Hp). exists b', m. split_and!; [by right | done..].
Qed.

(** Under bases that have no coroutine function left under a [test_] name
    (classes built by the metaclass hold wrappers), construction touches
    the namespace only: it has the same names in the same order, each
    coroutine test of the namespace is replaced by its own wrapper, and
    every other entry is as it was. *)
Theorem TestCaseMeta_new_own_tests_only (bases : list pyclass) (ns : dict) :
  NoDup (dict_keys ns) ->
  (forall k, startswith_test k = true -> ~ base_has_coro bases k) ->
  TestCaseMeta_new bases ns = wrap_entry <$> ns /\
  dict_keys (TestCaseMeta_new bases ns) = dict_keys ns /\
  forall i k v, ns !! i = Some (k, v) ->
    TestCaseMeta_new bases ns !! i
    = Some (k, if startswith_test k && iscoroutinefunction v
               then ObjWrapper v else v).
Proof.
  intros Hnd Hno.
  assert (Heq : TestCaseMeta_new bases ns = wrap_entry <$> ns).
  { rewrite TestCaseMeta_new_unfold by done.
    by rewrite new_over_bases_noop. }
  split; [done|]. rewrite Heq. split; [apply dict_keys_fmap_wrap|].
  intros i k v Hi. rewrite list_lookup_fmap, Hi. done.
Qed.

Lemma TestCaseMeta_new_own_tests_only_witness :
  TestCaseMeta_new [TestCase_base]
    [("test_y", ObjCoro T_test_y); ("setUp", ObjFunc "T.setUp")]
  = [("test_y", ObjWrapper (ObjCoro T_test_y)); ("setUp", ObjFunc "T.setUp")].
Proof.
  destruct (TestCaseMeta_new_own_tests_only [TestCase_base]
              [("test_y", ObjCoro T_test_y); ("setUp", ObjFunc "T.setUp")])
    as (Heq & _).
  - apply (bool_decide_unpack _). vm_compute. exact I.
  - intros k Hp. apply (proj1 (inherited_coro_None [TestCase_base] k Hp)).
    reflexivity.
  - rewrite Heq. reflexivity.
Defined.

Lemma inherited_coro_app l1 l2 k :
  inherited_coro (l1 ++ l2) k =
  match inherited_coro l2 k with
  | Some m => Some m
  | None => inherited_coro l1 k
  end.
Proof.
  induction l1 as [|b l1 IH]; simpl.
  - by destruct (inherited_coro l2 k).
  - rewrite IH. by destruct (inherited_coro l2 k).
Qed.

Lemma dir_coro_unique attrs k m :
  NoDup attrs.*1 -> (k, m) ∈ attrs ->
  startswith_test k = true -> iscoroutinefunction m = true ->
  dir_coro attrs k = Some m.
Proof.
  intros Hnd Hin Hp Hc. induction attrs as [|[n m0] attrs IH]; simpl in *.
  - by apply elem_of_nil in Hin.
  - apply NoDup_cons in Hnd as [Hnotin Hnd].
    apply elem_of_cons in Hin as [[= <- <-]|Hin].
    + destruct (dir_coro attrs k) as [m'|] eqn:E.
      * exfalso. apply Hnotin. apply dir_coro_Some in E as (_ & _ & E).
        apply list_elem_of_fmap. by exists (k, m').
      * by rewrite Hp, Hc, String.eqb_refl.
    + by rewrite (IH Hnd Hin).
Qed.

(** When several bases have a coroutine function under the same test
    name, the class holds the wrapper of the one of the base that is last in
    the tuple of bases (attribute lookup would find the one of the first),
    whatever the namespace holds under the name. *)
Theorem TestCaseMeta_new_last_base_wins (before after : list pyclass)
    (base : pyclass) (ns : dict) (k : string) (m : pyobj) :
  NoDup (dict_keys ns) ->
  NoDup (cls_attrs base).*1 ->
  (k, m) ∈ cls_attrs base ->
  startswith_test k = true -> iscoroutinefunction m = true ->
  ~ base_has_coro after k ->
  dict_get (TestCaseMeta_new (before ++ base :: after) ns) k
  = Some (ObjWrapper m).
Proof.
  intros Hnd Hdir Hin Hp Hc Hafter.
  apply inherited_shadows_namespace; [done|].
  rewrite inherited_coro_app. simpl.
  rewrite (proj2 (inherited_coro_None after k Hp) Hafter).
  by rewrite (dir_coro_unique _ _ _ Hdir Hin Hp Hc).
Qed.

Lemma TestCaseMeta_new_last_base_wins_witness :
  dict_get (TestCaseMeta_new [Mixin; Other; TestCase_base] []) "test_x"
  = Some (ObjWrapper (ObjCoro Other_test_x)).
Proof.
  apply (TestCaseMeta_new_last_base_wins [Mixin] [TestCase_base] Other []).
  - apply NoDup_nil_2.
  - apply (bool_decide_unpack _). vm_compute. exact I.
  - by left.
  - reflexivity.
  - reflexivity.
  - apply (proj1 (inherited_coro_None [TestCase_base] "test_x" eq_refl)).
    reflexivity.
Defined.

(** ** What the class holds under a test name *)



(** ** The wrapper and with_timeout *)

(** A test under [with_timeout(t)], for a deadline [t] of [d] seconds
    that is truthy, whatever deadline the function had before: if its body
    returns in less than [d] seconds, the wrapper returns [None] (the value
    of the body is dropped); if the body needs more than [d] seconds, the
    wrapper raises [self.failureException]. *)
Theorem with_timeout_deadline `{PyRuntime} (meth : corofn) (t : pyval) (d : Q)
    (v : pyval) (self : testcase) (args : list pyval) :
  truthy t = true -> seconds t = Some d -> co_result meth = Returns v ->
  resolve_timeout (with_timeout t meth) = t /\
  ((co_duration meth < d)%Q ->
     run_outcome (wrapper (with_timeout t meth) self args) = Returns PyNone) /\
  ((d < co_duration meth)%Q ->
     exists e, run_outcome (wrapper (with_timeout t meth) self args) = Raises e /\
               exc_type e = tc_failureException self).
Proof.
  intros Ht Hs Hv. split; [done|].
  assert (Hc : run_coro (wrapper (with_timeout t meth) self args)
               = AwWaitFor (AwCoro (with_timeout t meth) self args) t (tc_loop self)).
  { by apply (run_coro_truthy (with_timeout t meth)). }
  split; intros Hlt; rewrite run_outcome_unfold, Hc;
    unfold run_until_complete; simpl; rewrite Hs.
  - rewrite deadline_first_gt by done. simpl. by rewrite Hv.
  - rewrite deadline_first_lt by done. simpl. by eexists.
Qed.

Lemma with_timeout_deadline_witness :
  run_outcome (@wrapper sample_runtime (with_timeout (PyInt 1) test_slow)
                 sample_self []) = Returns PyNone /\
  exists e,
    run_outcome (@wrapper sample_runtime (with_timeout (PyFloat (1 # 2)) test_slow)
                   sample_self []) = Raises e /\
    exc_type e = AssertionError.
Proof.
  split.
  - destruct (@with_timeout_deadline sample_runtime test_slow (PyInt 1) 1 PyNone
                sample_self [] eq_refl eq_refl eq_refl) as (_ & Hin & _).
    apply Hin. reflexivity.
  - destruct (@with_timeout_deadline sample_runtime test_slow (PyFloat (1 # 2))
                (1 # 2) PyNone sample_self [] eq_refl eq_refl eq_refl)
      as (_ & _ & Hout).
    apply Hout. reflexivity.
Defined.

(** ** assertRunUnder and assertLoopErrorHandlerCalled *)

(** Loosening the bound never makes a measurement fail: if a block that
    completes passes under [delta], then under any [delta'] not smaller the
    statement ends as the block ends, whatever the block does. *)
Theorem assertRunUnder_monotone `{PyRuntime} (delta delta' st now : Q)
    (block : outcome unit) :
  (delta <= delta')%Q ->
  assertRunUnder delta st now (Returns tt) = Returns tt ->
  assertRunUnder delta' st now block = block.
Proof.
  intros Hle Hpass. unfold assertRunUnder in *.
  destruct (Qle_bool (now - st) delta) eqn:E; [|discriminate].
  apply Qle_bool_iff in E.
  assert (Qle_bool (now - st) delta' = true) as ->; [|done].
  apply Qle_bool_iff. by eapply Qle_trans.
Qed.

Lemma assertRunUnder_monotone_witness :
  @assertRunUnder sample_runtime (1 # 2) 0 (1 # 100) (Raises boom) = Raises boom.
Proof.
  apply (@assertRunUnder_monotone sample_runtime (1 # 10) (1 # 2)).
  - vm_compute. discriminate.
  - reflexivity.
Defined.

(** ** silence_asyncio_long_exec_warning *)

Lemma new_filter_id_fresh filters f :
  f ∈ filters -> (flt_id f < new_filter_id filters)%nat.
Proof.
  unfold new_filter_id. induction filters as [|g filters IH]; intros Hin.
  - by apply elem_of_nil in Hin.
  - rewrite fmap_cons. cbn [foldr].
    apply elem_of_cons in Hin as [->|Hin]; [lia|].
    specialize (IH Hin). lia.
Qed.

Lemma has_filter_new filters : has_filter (new_filter_id filters) filters = false.
Proof.
  unfold has_filter. apply not_true_is_false. intros Hex.
  apply existsb_exists in Hex as (f & Hin & Heq).
  apply Nat.eqb_eq in Heq. apply list_elem_of_In in Hin.
  pose proof (new_filter_id_fresh filters f Hin). lia.
Qed.

Lemma removeFilter_last id f filters :
  flt_id f = id -> (forall g, g ∈ filters -> flt_id g <> id) ->
  removeFilter id (filters ++ [f]) = filters.
Proof.
  intros Hid Hne. induction filters as [|g filters IH]; simpl.
  - by rewrite Hid, Nat.eqb_refl.
  - assert ((flt_id g =? id)%nat = false) as ->.
    { apply Nat.eqb_neq, Hne. by left. }
    rewrite IH; [done|]. intros g' Hin. apply Hne. by right.
Qed.

(** While the block runs, the records handled by the [asyncio] logger are
    those that would be handled without the helper and whose message does
    not start with [Executing ]; on exit the filters of the logger are
    those of entry, and the statement ends as the block ends, also when it
    raises. *)
Theorem silence_asyncio_long_exec_warning_spec (filters : list log_filter)
    (logged : list string) (block : outcome unit) :
  silence_asyncio_long_exec_warning filters logged block
  = (List.filter
       (fun msg => handled filters msg && negb (String.prefix "Executing " msg))
       logged,
     filters, block).
Proof.
  unfold silence_asyncio_long_exec_warning, addFilter. simpl.
  rewrite has_filter_new.
  rewrite removeFilter_last.
  - do 2 f_equal. apply filter_ext. intros msg. unfold handled.
    rewrite forallb_app. simpl. by rewrite andb_true_r.
  - done.
  - intros g Hin. pose proof (new_filter_id_fresh filters g Hin). lia.
Qed.

(** ** The loop of a test class *)



(** ** The backend of the proxy *)

(** When the proxy gets constructed, its backend host is text, not empty,
    and not a socket path (it does not start with [/]). It is the host of
    the cluster whenever that host is such a text, and [127.0.0.1] in the
    other cases: no host, a falsy one, or a socket path. Its backend port
    is the port of the cluster, and its loop the loop of the class. *)
Theorem proxy_backend_host (conn_spec : gmap string pyval) (loop : loop_id)
    (args : proxy_args) :
  proxy_backend conn_spec loop = Returns args ->
  (exists s, backend_host args = PyStr s /\ s <> "" /\
             String.prefix "/" s = false /\
             (conn_spec !! "host" = Some (PyStr s) \/ s = "127.0.0.1")) /\
  conn_spec !! "port" = Some (backend_port args) /\
  proxy_loop args = loop /\
  (forall s, conn_spec !! "host" = Some (PyStr s) -> s <> "" ->
     String.prefix "/" s = false -> backend_host args = PyStr s) /\
  (conn_spec !! "host" = None -> backend_host args = PyStr "127.0.0.1") /\
  (forall v, conn_spec !! "host" = Some v -> truthy v = false ->
     backend_host args = PyStr "127.0.0.1") /\
  (forall s, conn_spec !! "host" = Some (PyStr s) ->
     String.prefix "/" s = true -> backend_host args = PyStr "127.0.0.1").
Proof.
  unfold proxy_backend.
  destruct (conn_spec !! "port") as [port|] eqn:Hport.
  2:{ repeat case_match; discriminate. }
  destruct (conn_spec !! "host") as [host|] eqn:Hhost.
  - destruct (truthy host) eqn:Ht; simpl.
    + destruct host as [| | |s]; simpl; try discriminate.
      destruct (String.prefix "/" s) eqn:Hp; intros [= <-]; simpl.
      * split_and!; try done.
        -- exists "127.0.0.1". split_and!; [done..|by right].
        -- intros s' [= <-] _ Hp'. congruence.
      * split_and!; try done.
        -- exists s. split_and!; [done | by apply truthy_PyStr | done | by left].
        -- by intros s' [= <-].
        -- intros v [= <-]. congruence.
        -- intros s' [= <-]. congruence.
    + intros [= <-]. simpl. split_and!; try done.
      * exists "127.0.0.1". split_and!; [done..|by right].
      * intros s [= ->] Hne _. simpl in Ht.
        apply negb_false_iff, String.eqb_eq in Ht. done.
  - simpl. intros [= <-]. simpl. split_and!; try done.
    exists "127.0.0.1". split_and!; [done..|by right].
Qed.

(** The theorem at a cluster that listens on a TCP address, whose host the
    proxy takes, and at one that listens on a socket in [/tmp/pg]. *)
Lemma proxy_backend_host_witness :
  (exists args, proxy_backend tcp_spec 7 = Returns args /\
     backend_host args = PyStr "10.0.0.5" /\ backend_port args = PyInt 6432) /\
  (exists args, proxy_backend sample_spec 7 = Returns args /\
     backend_host args = PyStr "127.0.0.1" /\ backend_port args = PyInt 5432).
Proof.
  split.
  - destruct (proxy_backend tcp_spec 7) as [args|e] eqn:Hb;
      [|vm_compute in Hb; discriminate].
    destruct (proxy_backend_host tcp_spec 7 args Hb)
      as (_ & Hport & _ & Htcp & _).
    exists args. split_and!; [done | |].
    + apply Htcp; [reflexivity | discriminate | reflexivity].
    + assert (Hp : tcp_spec !! "port" = Some (PyInt 6432)) by reflexivity.
      congruence.
  - destruct (proxy_backend sample_spec 7) as [args|e] eqn:Hb;
      [|vm_compute in Hb; discriminate].
    destruct (proxy_backend_host sample_spec 7 args Hb)
      as (_ & Hport & _ & _ & _ & _ & Hpath).
    exists args. split_and!; [done | |].
    + apply (Hpath "/tmp/pg"); reflexivity.
    + assert (Hp : sample_spec !! "port" = Some (PyInt 5432)) by reflexivity.
      congruence.
Defined.

(** ** Connection options of a test *)

Lemma ConnectedTestCase_setUp_at loop r (h : heap) opts :
  h !! r = Some opts -> opts !! "loop" = None ->
  exists h',
    ConnectedTestCase_setUp loop (Some r) h
    = Some (Returns (ClusterConnect (with_default_database opts) loop), h') /\
    forall r0 d0, h !! r0 = Some d0 -> h' !! r0 = Some d0.
Proof.
  intros Hr Hloop. unfold ConnectedTestCase_setUp, with_default_database.
  rewrite Hr. destruct (opts !! "database") as [db|] eqn:Hdb.
  - rewrite Hr, Hloop. by exists h.
  - assert (Hfresh : h !! fresh (dom h) = None).
    { apply not_elem_of_dom, is_fresh. }
    unfold heap_setitem. rewrite lookup_alter_eq, lookup_insert_eq. simpl.
    rewrite lookup_insert_ne by done. rewrite Hloop.
    eexists. split; [done|]. intros r0 d0 H0.
    assert (r0 <> fresh (dom h)) by (intros ->; congruence).
    rewrite lookup_alter_ne by done. by rewrite lookup_insert_ne.
Qed.

(** [setUp] connects with the options that the test function carries,
    and adds [database='postgres'] when they name no database. It adds it
    to a copy: the dictionary of the function, and every other dictionary,
    is as it was, so that each run of the test connects with the same
    options. *)
Theorem ConnectedTestCase_setUp_options (loop : loop_id) (r : nat) (h : heap)
    (opts : gmap string pyval) :
  h !! r = Some opts -> opts !! "loop" = None ->
  exists kwargs h',
    ConnectedTestCase_setUp loop (Some r) h
    = Some (Returns (ClusterConnect kwargs loop), h') /\
    (forall db, opts !! "database" = Some db -> kwargs = opts) /\
    (opts !! "database" = None ->
       kwargs !! "database" = Some (PyStr "postgres") /\
       forall k, k <> "database" -> kwargs !! k = opts !! k) /\
    h' !! r = Some opts /\
    forall r0 d0, h !! r0 = Some d0 -> h' !! r0 = Some d0.
Proof.
  intros Hr Hloop.
  destruct (ConnectedTestCase_setUp_at loop r h opts Hr Hloop) as (h' & Hset & Hframe).
  exists (with_default_database opts), h'.
  split; [done|]. unfold with_default_database. split_and!.
  - by intros db ->.
  - intros ->. split; [by rewrite lookup_insert_eq|].
    intros k Hk. by rewrite lookup_insert_ne.
  - by apply Hframe.
  - done.
Qed.

Lemma ConnectedTestCase_setUp_options_witness :
  exists kwargs h',
    ConnectedTestCase_setUp 7 (Some 1%nat)
      (<[1%nat := {[ "user" := PyStr "alice" ]}]> sample_heap)
    = Some (Returns (ClusterConnect kwargs 7), h') /\
    kwargs !! "database" = Some (PyStr "postgres") /\
    kwargs !! "user" = Some (PyStr "alice") /\
    h' !! 1%nat = Some {[ "user" := PyStr "alice" ]}.
Proof.
  assert (H1 : <[1%nat := {[ "user" := PyStr "alice" ]}]> sample_heap !! 1%nat
               = Some ({[ "user" := PyStr "alice" ]} : gmap string pyval))
    by (vm_compute; reflexivity).
  assert (H2 : ({[ "user" := PyStr "alice" ]} : gmap string pyval) !! "loop" = None)
    by (vm_compute; reflexivity).
  destruct (ConnectedTestCase_setUp_options 7 1
              (<[1%nat := {[ "user" := PyStr "alice" ]}]> sample_heap)
              {[ "user" := PyStr "alice" ]} H1 H2)
    as (kwargs & h' & Hset & _ & Hdb & Hkeep & _).
  assert (H3 : ({[ "user" := PyStr "alice" ]} : gmap string pyval) !! "database"
               = None) by (vm_compute; reflexivity).
  destruct (Hdb H3) as (Hpg & Hrest).
  exists kwargs, h'. split_and!; [done | done | | done].
  rewrite Hrest by done. vm_compute. reflexivity.
Defined.

(** A test function without [__connect_options__] connects with
    [database='postgres'] and nothing else, and no dictionary that existed
    is changed. *)
Theorem ConnectedTestCase_setUp_default (loop : loop_id) (h : heap) :
  exists h',
    ConnectedTestCase_setUp loop None h
    = Some (Returns (ClusterConnect {[ "database" := PyStr "postgres" ]} loop), h') /\
    forall r0 d0, h !! r0 = Some d0 -> h' !! r0 = Some d0.
Proof.
  assert (Hfresh : h !! fresh (dom h) = None).
  { apply not_elem_of_dom, is_fresh. }
  destruct (ConnectedTestCase_setUp_at loop (fresh (dom h))
              (<[fresh (dom h) := ∅]> h) ∅) as (h' & Hset & Hframe).
  { by rewrite lookup_insert_eq. }
  { done. }
  exists h'. split.
  - unfold ConnectedTestCase_setUp in *. rewrite Hset.
    unfold with_default_database. by rewrite lookup_empty, insert_empty.
  - intros r0 d0 H0. apply Hframe.
    assert (r0 <> fresh (dom h)) by (intros ->; congruence).
    by rewrite lookup_insert_ne.
Qed.

(** [with_connection_options] without options raises [ValueError] when
    the decorator is made, and touches nothing. With options, the function
    gets a new dictionary with exactly these options, [setUp] connects with
    them (and the default database), and leaves that dictionary as it
    is. *)
Theorem with_connection_options_roundtrip (options : gmap string pyval)
    (loop : loop_id) (h : heap) :
  (options = ∅ ->
     exists e, with_connection_options options h = (Raises e, h) /\
               exc_type e = ValueError) /\
  (options <> ∅ -> options !! "loop" = None ->
     exists r h1 h2,
       with_connection_options options h = (Returns r, h1) /\
       h !! r = None /\ h1 !! r = Some options /\
       ConnectedTestCase_setUp loop (Some r) h1
       = Some (Returns (ClusterConnect (with_default_database options) loop), h2) /\
       h2 !! r = Some options).
Proof.
  unfold with_connection_options. split.
  - intros ->. rewrite decide_True by done. by eexists.
  - intros Hne Hloop. rewrite decide_False by done.
    assert (Hfresh : h !! fresh (dom h) = None).
    { apply not_elem_of_dom, is_fresh. }
    assert (Hr : <[fresh (dom h) := options]> h !! fresh (dom h) = Some options)
      by (by rewrite lookup_insert_eq).
    destruct (ConnectedTestCase_setUp_at loop _ _ options Hr Hloop)
      as (h2 & Hset & Hframe).
    exists (fresh (dom h)), (<[fresh (dom h) := options]> h), h2.
    split_and!; [done..|]. by apply Hframe.
Qed.

Lemma with_connection_options_roundtrip_witness :
  (exists e, with_connection_options ∅ sample_heap = (Raises e, sample_heap)) /\
  exists r h1 h2,
    with_connection_options {[ "database" := PyStr "db1" ]} sample_heap
    = (Returns r, h1) /\
    ConnectedTestCase_setUp 7 (Some r) h1
    = Some (Returns (ClusterConnect {[ "database" := PyStr "db1" ]} 7), h2).
Proof.
  split.
  - destruct (with_connection_options_roundtrip ∅ 7 sample_heap) as (Hemp & _).
    destruct (Hemp eq_refl) as (e & He & _). by exists e.
  - destruct (with_connection_options_roundtrip {[ "database" := PyStr "db1" ]}
                7 sample_heap) as (_ & Hopt).
    destruct Hopt as (r & h1 & h2 & Hw & _ & _ & Hset & _).
    + intros Heq. apply (f_equal (fun m => m !! "database")) in Heq.
      vm_compute in Heq. discriminate.
    + reflexivity.
    + exists r, h1, h2. split; [exact Hw | exact Hset].
Defined.

(** ** The default cluster, over the life of the process *)

Lemma atexit_registered_app tr1 tr2 :
  atexit_registered (tr1 ++ tr2) = atexit_registered tr1 ++ atexit_registered tr2.
Proof.
  induction tr1 as [|ev tr1 IH]; [done|].
  destruct ev; simpl; by rewrite IH.
Qed.

(** A call of [_start_cluster] that returns: the cluster is the next
    object, and the calls made are those of the function, in its order. *)
Lemma start_cluster_returns faults cls kw s p c p1 :
  _start_cluster faults cls kw s p = (Returns c, p1) ->
  c = next_object p /\
  default_cluster p1 = default_cluster p /\
  environ_PGHOST p1 = environ_PGHOST p /\
  next_object p1 = S (next_object p) /\
  trace p1 = trace p ++ [EvConstruct c cls kw; EvInit c;
                         EvTrustLocalConnections c; EvStart c "dynamic" s;
                         EvAtexitRegister c].
Proof.
  unfold_M.
  repeat (match goal with
          | |- context [faults ?ev] => destruct (faults ev)
          end; simpl);
    try discriminate.
  intros [= <- <-]. simpl. split_and!; try done.
  by rewrite <- !app_assoc.
Qed.

(** A call of [_start_cluster] that raises: nothing has been registered
    with [atexit]. *)
Lemma start_cluster_raises faults cls kw s p e p1 :
  (forall c, faults (EvAtexitRegister c) = None) ->
  _start_cluster faults cls kw s p = (Raises e, p1) ->
  default_cluster p1 = default_cluster p /\
  atexit_registered (trace p1) = atexit_registered (trace p).
Proof.
  intros Hreg. unfold_M. rewrite Hreg.
  repeat (match goal with
          | |- context [faults ?ev] => destruct (faults ev)
          end; simpl);
    try discriminate; intros [= <- <-]; simpl;
    rewrite ?atexit_registered_app; simpl; by rewrite ?app_nil_r.
Qed.

(** Once a call of [_start_default_cluster] has returned a cluster, every
    later call, in any number and with any settings, returns that cluster
    and leaves the process as it is. *)
Theorem start_default_cluster_many (faults faults' : cluster_event -> option exn)
    (s : settings) (p p1 : process) (c : nat) (ss : list settings) :
  _start_default_cluster faults s p = (Returns c, p1) ->
  start_default_many faults' ss p1 = ((fun _ => Returns c) <$> ss, p1).
Proof.
  intros Hfirst. apply start_default_cluster_sets in Hfirst.
  induction ss as [|s' ss IH]; [done|].
  cbn [start_default_many].
  rewrite (start_default_cluster_cached faults' s' p1 c Hfirst).
  by rewrite IH.
Qed.

Lemma start_default_cluster_many_witness :
  let p1 := (setup_cluster no_faults ProxiedClusterTestCase (initial_process None)).2 in
  start_default_many no_faults
    [ClusterTestCase_get_server_settings; ∅;
     ProxiedClusterTestCase_get_server_settings] p1
  = ([Returns 0%nat; Returns 0%nat; Returns 0%nat], p1).
Proof.
  intros p1.
  rewrite (start_default_cluster_many no_faults no_faults
             ProxiedClusterTestCase_get_server_settings (initial_process None)
             p1 0%nat _ eq_refl).
  reflexivity.
Defined.

(** A call of [_start_default_cluster] that raises leaves
    [_default_cluster] unset and registers nothing with [atexit]: the
    cluster that failed to start is not destroyed when the process exits,
    and the next call that returns makes a new cluster. *)
Theorem start_default_cluster_failure (faults faults' : cluster_event -> option exn)
    (s : settings) (p p1 : process) (e : exn) (status : nat -> string)
    (fails : shutdown_event -> option exn) :
  (forall c, faults (EvAtexitRegister c) = None) ->
  default_cluster p = None ->
  _start_default_cluster faults s p = (Raises e, p1) ->
  default_cluster p1 = None /\
  atexit_registered (trace p1) = atexit_registered (trace p) /\
  run_exitfuncs status fails (trace p1) = run_exitfuncs status fails (trace p) /\
  forall s' c' p2,
    _start_default_cluster faults' s' p1 = (Returns c', p2) ->
    c' = next_object p1.
Proof.
  intros Hreg Hd Hfail.
  assert (default_cluster p1 = None /\
          atexit_registered (trace p1) = atexit_registered (trace p))
    as [Hd1 Hat].
  { revert Hfail. unfold _start_default_cluster. rewrite Hd.
    destruct (env_truthy (environ_PGHOST p)).
    - unfold_M. destruct (faults _); [|discriminate].
      intros [= <- <-]. simpl. rewrite atexit_registered_app. simpl.
      by rewrite app_nil_r.
    - unfold mbind at 1. unfold M_bind at 1.
      destruct (_start_cluster faults TempCluster ∅ s p) as [[c|e'] p'] eqn:Hs.
      + unfold_M. discriminate.
      + intros [= <- <-].
        destruct (start_cluster_raises _ _ _ _ _ _ _ Hreg Hs) as [Hd' Hat'].
        split; [congruence | done]. }
  split_and!; [done | done | |].
  - unfold run_exitfuncs. by rewrite Hat.
  - intros s' c' p2. unfold _start_default_cluster. rewrite Hd1.
    destruct (env_truthy (environ_PGHOST p1)).
    + unfold_M. destruct (faults' _); [discriminate|]. by intros [= <- _].
    + unfold mbind at 1. unfold M_bind at 1.
      destruct (_start_cluster faults' TempCluster ∅ s' p1) as [[c|e'] p'] eqn:Hs;
        [|discriminate].
      apply start_cluster_returns in Hs as (-> & _).
      unfold_M. by intros [= <- _].
Qed.

Lemma start_default_cluster_failure_witness :
  let p1 := (_start_default_cluster init_fails ∅ (initial_process None)).2 in
  default_cluster p1 = None /\
  trace p1 = [EvConstruct 0 TempCluster ∅; EvInit 0] /\
  run_exitfuncs (fun _ => "initialized") no_shutdown_faults (trace p1) = [].
Proof.
  intros p1.
  destruct (start_default_cluster_failure init_fails no_faults ∅
              (initial_process None) p1
              (new_exn (UserError "ClusterError") "initdb failed")
              (fun _ => "initialized") no_shutdown_faults)
    as (Hd & _ & Hexit & _); [done | done | reflexivity |].
  split; [exact Hd|]. split; [reflexivity | exact Hexit].
Defined.

(** The exit of a process whose first call of [_start_default_cluster]
    returned. A running cluster found through [PGHOST] gets no call at all.
    A cluster of the harness ([PGHOST] not set) is shut down once, and no
    other cluster is touched: its status is asked first; it is stopped if
    and only if that call returns and the status is [running]; and it is
    destroyed if and only if every call before returns, so that a [stop]
    which raises leaves the cluster undestroyed. When no call raises, the
    calls are [get_status], [stop] for a running cluster, and [destroy]. *)
Theorem default_cluster_at_exit (faults : cluster_event -> option exn)
    (pghost : option string) (s : settings) (c : nat) (p1 : process)
    (status : nat -> string) (fails : shutdown_event -> option exn) :
  _start_default_cluster faults s (initial_process pghost) = (Returns c, p1) ->
  let evs := run_exitfuncs status fails (trace p1) in
  (env_truthy pghost = true -> evs = []) /\
  (env_truthy pghost = false ->
     evs = (_shutdown_cluster status fails c).1 /\
     (exists rest, evs = EvGetStatus c :: rest) /\
     (forall ev, ev ∈ evs ->
        ev = EvGetStatus c \/ ev = EvStop c \/ ev = EvDestroy c) /\
     (EvStop c ∈ evs <->
        fails (EvGetStatus c) = None /\ status c = "running") /\
     (EvDestroy c ∈ evs <->
        fails (EvGetStatus c) = None /\
        (status c = "running" -> fails (EvStop c) = None)) /\
     ((forall ev, fails ev = None) ->
        evs = EvGetStatus c ::
              (if String.eqb (status c) "running" then [EvStop c] else [])
              ++ [EvDestroy c])).
Proof.
  intros Hfirst evs.
  assert (Hexit : evs =
            if env_truthy pghost then []
            else (_shutdown_cluster status fails c).1).
  { subst evs. revert Hfirst. unfold _start_default_cluster, initial_process.
    simpl. destruct (env_truthy pghost).
    - unfold_M. destruct (faults _); [discriminate|].
      by intros [= <- <-].
    - unfold mbind at 1. unfold M_bind at 1.
      destruct (_start_cluster faults TempCluster ∅ s _) as [[c0|e'] p'] eqn:Hs;
        [|discriminate].
      apply start_cluster_returns in Hs as (-> & _ & _ & _ & Htr).
      unfold_M. intros [= <- <-]. simpl. rewrite Htr. simpl.
      unfold run_exitfuncs. simpl. by rewrite app_nil_r. }
  clearbody evs. split; intros Hpg; rewrite Hpg in Hexit; [done|].
  subst evs. split; [done|]. unfold _shutdown_cluster.
  destruct (fails (EvGetStatus c)) as [e0|] eqn:Hg.
  { simpl. split_and!.
    - by eexists.
    - intros ev ->%list_elem_of_singleton. by left.
    - split; [intros [=]%list_elem_of_singleton | by intros [[=] _]].
    - split; [intros [=]%list_elem_of_singleton | by intros [[=] _]].
    - intros Hall. rewrite Hall in Hg. discriminate. }
  destruct (String.eqb (status c) "running") eqn:E.
  - apply String.eqb_eq in E.
    destruct (fails (EvStop c)) as [e1|] eqn:Hs; simpl.
    + split_and!.
      * by eexists.
      * intros ev Hin. rewrite !elem_of_cons, elem_of_nil in Hin. tauto.
      * split; [done | intros _; repeat constructor].
      * split.
        -- intros Hin. exfalso.
           apply elem_of_cons in Hin as [[=]|Hin].
           by apply list_elem_of_singleton in Hin.
        -- intros [_ Hno]. specialize (Hno E). discriminate.
      * intros Hall. rewrite Hall in Hs. discriminate.
    + split_and!.
      * by eexists.
      * intros ev Hin. rewrite !elem_of_cons, elem_of_nil in Hin. tauto.
      * split; [done | intros _; repeat constructor].
      * split; [done | intros _; repeat constructor].
      * done.
  - assert (Hnr : status c <> "running").
    { intros Heq. apply String.eqb_eq in Heq. congruence. }
    simpl. split_and!.
    + by eexists.
    + intros ev Hin. rewrite !elem_of_cons, elem_of_nil in Hin. tauto.
    + split; [|by intros [_ ?]].
      intros Hin. exfalso.
      apply elem_of_cons in Hin as [[=]|Hin].
      by apply list_elem_of_singleton in Hin.
    + split; [done | intros _; repeat constructor].
    + done.
Qed.

(** The theorem at a running cluster of the harness: shut down in full
    when no call raises, left undestroyed when [stop] raises; and at a
    cluster found through [PGHOST]. *)
Lemma default_cluster_at_exit_witness :
  let p1 := (_start_default_cluster no_faults ∅ (initial_process None)).2 in
  run_exitfuncs (fun _ => "running") no_shutdown_faults (trace p1)
  = [EvGetStatus 0; EvStop 0; EvDestroy 0] /\
  run_exitfuncs (fun _ => "running") stop_fails (trace p1)
  = [EvGetStatus 0; EvStop 0] /\
  ~ EvDestroy 0 ∈ run_exitfuncs (fun _ => "running") stop_fails (trace p1) /\
  let p2 := (_start_default_cluster no_faults ∅ (initial_process (Some "db"))).2 in
  run_exitfuncs (fun _ => "running") no_shutdown_faults (trace p2) = [].
Proof.
  intros p1.
  destruct (default_cluster_at_exit no_faults None ∅ 0%nat p1
              (fun _ => "running") no_shutdown_faults eq_refl)
    as (_ & Hok).
  destruct (Hok eq_refl) as (_ & _ & _ & _ & _ & Hall).
  destruct (default_cluster_at_exit no_faults None ∅ 0%nat p1
              (fun _ => "running") stop_fails eq_refl)
    as (_ & Hbad).
  destruct (Hbad eq_refl) as (Hevs & _ & _ & _ & Hdestroy & _).
  destruct (default_cluster_at_exit no_faults (Some "db") ∅ 0%nat
              (_start_default_cluster no_faults ∅ (initial_process (Some "db"))).2
              (fun _ => "running") no_shutdown_faults eq_refl)
    as (Hpg & _).
  split_and!.
  - exact (Hall (fun _ => eq_refl)).
  - exact Hevs.
  - intros Hin. apply Hdestroy in Hin as [_ Hno].
    specialize (Hno eq_refl). discriminate.
  - exact (Hpg eq_refl).
Defined.

(** [start_cluster] makes a cluster of its own: it is a new object, it is
    not the default cluster and leaves [_default_cluster] as it is, and it
    is registered for shutdown at exit, after those registered before. *)
Theorem start_cluster_is_separate (faults : cluster_event -> option exn)
    (ClusterCls : cluster_class) (cluster_kwargs : gmap string pyval)
    (server_settings : settings) (p p1 : process) (c : nat) :
  process_wf p ->
  ClusterTestCase_start_cluster faults ClusterCls cluster_kwargs
    server_settings p = (Returns c, p1) ->
  c = next_object p /\
  default_cluster p1 = default_cluster p /\
  default_cluster p1 <> Some c /\
  atexit_registered (trace p1) = atexit_registered (trace p) ++ [c] /\
  process_wf p1.
Proof.
  intros Hwf Hs. unfold ClusterTestCase_start_cluster in Hs.
  apply start_cluster_returns in Hs as (-> & Hd & _ & Hnext & Htr).
  split_and!; [done | done | | |].
  - rewrite Hd. intros Heq. apply Hwf in Heq. lia.
  - rewrite Htr, atexit_registered_app. done.
  - intros c' Hc'. rewrite Hd in Hc'. apply Hwf in Hc'. lia.
Qed.

Lemma start_cluster_is_separate_witness :
  let p := (_start_default_cluster no_faults ∅ (initial_process None)).2 in
  let p1 := (ClusterTestCase_start_cluster no_faults TempCluster ∅
               {[ "max_connections" := "10" ]} p).2 in
  default_cluster p1 = Some 0%nat /\
  atexit_registered (trace p1) = [0%nat; 1%nat].
Proof.
  intros p p1.
  destruct (start_cluster_is_separate no_faults TempCluster ∅
              {[ "max_connections" := "10" ]} p p1 1%nat)
    as (_ & Hd & _ & Hat & _).
  - intros c [= <-]. vm_compute. lia.
  - reflexivity.
  - split; [by rewrite Hd|]. by rewrite Hat.
Defined.

(** ** connect and create_pool *)

(** The dictionary that [get_connection_spec] returns, by the kind of the
    class. *)
Lemma get_connection_spec_value cls (h : heap) spec :
  h !! tcls_cluster cls = Some spec ->
  (tcls_kind cls = ProxiedClusterTestCase -> is_Some (tcls_proxy cls)) ->
  exists r h1,
    get_connection_spec cls h = Some (r, h1) /\
    h1 !! r = Some
      match tcls_kind cls, tcls_proxy cls with
      | ProxiedClusterTestCase, Some px =>
          <["port" := listening_port px]> (<["host" := listening_addr px]> spec)
      | _, _ => spec
      end.
Proof.
  intros Hc Hpx. unfold get_connection_spec,
    ClusterTestCase_get_connection_spec,
    ProxiedClusterTestCase_get_connection_spec.
  destruct (Cluster_get_connection_spec_copy _ _ _ Hc) as (r & -> & _).
  destruct (tcls_kind cls).
  - eexists _, _. split; [done|]. by rewrite lookup_insert_eq.
  - destruct (Hpx eq_refl) as [px ->]. eexists _, _. split; [done|].
    unfold heap_setitem. by rewrite !lookup_alter_eq, lookup_insert_eq.
Qed.

Lemma connect_create_pool_calls cls pool_class kwargs (h : heap) spec :
  h !! tcls_cluster cls = Some spec ->
  (tcls_kind cls = ProxiedClusterTestCase -> is_Some (tcls_proxy cls)) ->
  let base := match tcls_kind cls, tcls_proxy cls with
              | ProxiedClusterTestCase, Some px =>
                  <["port" := listening_port px]>
                    (<["host" := listening_addr px]> spec)
              | _, _ => spec
              end in
  exists h',
    ClusterTestCase_connect cls kwargs h
    = Some (unpack (fun d => CallConnect d (tcls_loop cls)) (kwargs ∪ base), h') /\
    ClusterTestCase_create_pool cls pool_class kwargs h
    = Some (unpack (fun d => CallCreatePool pool_class d (tcls_loop cls))
              (kwargs ∪ base), h').
Proof.
  intros Hc Hpx base.
  destruct (get_connection_spec_value cls h spec Hc Hpx) as (r & h1 & Hget & Hbase).
  fold base in Hbase.
  unfold ClusterTestCase_connect, ClusterTestCase_create_pool.
  rewrite Hget. unfold heap_update. rewrite lookup_alter_eq, Hbase. simpl.
  by eexists.
Qed.

(** The overrides given to [connect] win over everything else, the
    address of the proxy included: on a proxied class, [connect(host=...)]
    connects to the given host and not through the proxy; a parameter that
    is not overridden is that of the proxy ([host], [port]) or of the
    cluster. *)
Theorem connect_overrides_win (cls : test_class) (kwargs : gmap string pyval)
    (h : heap) (spec : gmap string pyval) (px : proxy) :
  tcls_kind cls = ProxiedClusterTestCase ->
  tcls_proxy cls = Some px ->
  h !! tcls_cluster cls = Some spec ->
  kwargs !! "loop" = None -> spec !! "loop" = None ->
  exists d h',
    ClusterTestCase_connect cls kwargs h
    = Some (CallConnect d (tcls_loop cls), h') /\
    (forall k v, kwargs !! k = Some v -> d !! k = Some v) /\
    (kwargs !! "host" = None -> d !! "host" = Some (listening_addr px)) /\
    (kwargs !! "port" = None -> d !! "port" = Some (listening_port px)) /\
    (forall k, kwargs !! k = None -> k <> "host" -> k <> "port" ->
       d !! k = spec !! k).
Proof.
  intros Hk Hpx Hc Hl1 Hl2.
  destruct (connect_create_pool_calls cls "" kwargs h spec Hc) as (h' & Hcon & _).
  { intros _. rewrite Hpx. by eexists. }
  rewrite Hk, Hpx in Hcon.
  set (base := <["port" := listening_port px]>
                 (<["host" := listening_addr px]> spec)) in *.
  exists (kwargs ∪ base), h'. split_and!.
  - rewrite Hcon. unfold unpack.
    assert ((kwargs ∪ base) !! "loop" = None) as ->; [|done].
    apply lookup_union_None. split; [done|]. unfold base.
    by rewrite !lookup_insert_ne.
  - intros k v Hv. by apply lookup_union_Some_l.
  - intros Hn. rewrite lookup_union_r by done. unfold base.
    rewrite lookup_insert_ne by done. by rewrite lookup_insert_eq.
  - intros Hn. rewrite lookup_union_r by done. unfold base.
    by rewrite lookup_insert_eq.
  - intros k Hn Hh Hp. rewrite lookup_union_r by done. unfold base.
    by rewrite !lookup_insert_ne.
Qed.

Lemma connect_overrides_win_witness :
  exists d h',
    ClusterTestCase_connect sample_proxied_class
      {[ "host" := PyStr "db.example" ]} sample_heap
    = Some (CallConnect d 7, h') /\
    d !! "host" = Some (PyStr "db.example") /\
    d !! "port" = Some (PyInt 40001).
Proof.
  destruct (connect_overrides_win sample_proxied_class
              {[ "host" := PyStr "db.example" ]} sample_heap sample_spec
              sample_proxy eq_refl eq_refl)
    as (d & h' & Hcon & Hover & _ & Hport & _);
    [reflexivity | vm_compute; reflexivity | vm_compute; reflexivity |].
  exists d, h'. split_and!; [exact Hcon | |].
  - apply Hover. vm_compute. reflexivity.
  - apply Hport. vm_compute. reflexivity.
Defined.

(** [connect] and [create_pool] pass [loop=self.loop] themselves: a
    [loop] among the overrides, or in the spec of the cluster, makes the
    call fail with [TypeError] for a keyword given twice. *)
Theorem connect_loop_given_twice (cls : test_class) (pool_class : string)
    (kwargs : gmap string pyval) (h : heap) (spec : gmap string pyval)
    (v : pyval) :
  h !! tcls_cluster cls = Some spec ->
  (tcls_kind cls = ProxiedClusterTestCase -> is_Some (tcls_proxy cls)) ->
  kwargs !! "loop" = Some v \/ spec !! "loop" = Some v ->
  exists h',
    ClusterTestCase_connect cls kwargs h = Some (CallTypeError, h') /\
    ClusterTestCase_create_pool cls pool_class kwargs h = Some (CallTypeError, h').
Proof.
  intros Hc Hpx Hloop.
  destruct (connect_create_pool_calls cls pool_class kwargs h spec Hc Hpx)
    as (h' & Hcon & Hpool).
  exists h'. rewrite Hcon, Hpool. unfold unpack.
  match goal with
  | |- context [(kwargs ∪ ?b) !! "loop"] =>
      assert (is_Some ((kwargs ∪ b) !! "loop")) as [w ->]; [|done]
  end.
  destruct Hloop as [Hl|Hl].
  - exists v. by apply lookup_union_Some_l.
  - apply lookup_union_is_Some. right.
    destruct (tcls_kind cls); [by eexists|].
    destruct (tcls_proxy cls); [|by eexists].
    rewrite !lookup_insert_ne by done. by eexists.
Qed.

Lemma connect_loop_given_twice_witness :
  exists h',
    ClusterTestCase_connect sample_class {[ "loop" := PyInt 1 ]} sample_heap
    = Some (CallTypeError, h').
Proof.
  destruct (connect_loop_given_twice sample_class "Pool"
              {[ "loop" := PyInt 1 ]} sample_heap sample_spec (PyInt 1))
    as (h' & Hcon & _).
  - reflexivity.
  - discriminate.
  - left. vm_compute. reflexivity.
  - by exists h'.
Defined.

Lemma create_pool_defaults_other k :
  k ∉ create_pool_params -> create_pool_defaults !! k = None.
Proof.
  unfold create_pool_params. rewrite !not_elem_of_cons. intros Hk.
  unfold create_pool_defaults. simpl.
  rewrite !lookup_insert_ne by (intros <-; tauto). apply lookup_empty.
Qed.

Lemma create_pool_lookup (kw : gmap string pyarg) k :
  k <> "dsn" -> k <> "pool_class" ->
  pc_kwargs (create_pool kw) !! k =
  match kw !! k with
  | Some v => Some v
  | None => create_pool_defaults !! k
  end.
Proof.
  intros Hd Hp. unfold create_pool. cbn [pc_kwargs].
  repeat (rewrite lookup_insert; case_decide;
          [subst k; destruct (kw !! _); [done | vm_compute; reflexivity]|]).
  assert (Hnot : k ∉ create_pool_params).
  { unfold create_pool_params. rewrite !not_elem_of_cons.
    split_and!; try done. apply not_elem_of_nil. }
  rewrite lookup_foldr_delete_not_elem_of by done.
  destruct (kw !! k); [done|]. by rewrite create_pool_defaults_other.
Qed.

(** The module-level [create_pool] hands to the pool class every keyword
    it was given, except [dsn] (passed by position) and [pool_class]
    (called): a keyword it does not name is passed on as it is, one it
    names is passed with the value given, and with its default when none
    was given. *)
Theorem create_pool_passes_keywords (kw : gmap string pyarg) :
  pc_kwargs (create_pool kw) !! "dsn" = None /\
  pc_kwargs (create_pool kw) !! "pool_class" = None /\
  (forall k, k <> "dsn" -> k <> "pool_class" ->
     pc_kwargs (create_pool kw) !! k =
     match kw !! k with
     | Some v => Some v
     | None => create_pool_defaults !! k
     end) /\
  pc_dsn (create_pool kw) = default (ArgVal PyNone) (kw !! "dsn") /\
  pc_pool_class (create_pool kw)
  = default (ArgObj "asyncpg.pool.Pool") (kw !! "pool_class").
Proof.
  split_and!.
  - unfold create_pool. cbn [pc_kwargs]. rewrite !lookup_insert_ne by done.
    apply lookup_foldr_delete. unfold create_pool_params. by left.
  - unfold create_pool. cbn [pc_kwargs]. rewrite !lookup_insert_ne by done.
    apply lookup_foldr_delete. unfold create_pool_params.
    do 8 right. by left.
  - apply create_pool_lookup.
  - unfold create_pool. simpl. by destruct (kw !! "dsn").
  - unfold create_pool. simpl. by destruct (kw !! "pool_class").
Qed.

(** [create_pool] of a test case, down to the construction of the pool:
    the pool class is the one asked for, the loop is the loop of the class,
    each connection parameter is the override if there is one and that of
    the cluster otherwise, and the sizing parameters that are given nowhere
    have the defaults of the module. *)
Theorem ClusterTestCase_create_pool_constructs (cls : test_class)
    (pool_class : string) (kwargs : gmap string pyval) (h : heap)
    (spec : gmap string pyval) :
  tcls_kind cls = ClusterTestCase ->
  h !! tcls_cluster cls = Some spec ->
  (kwargs ∪ spec) !! "loop" = None ->
  (kwargs ∪ spec) !! "pool_class" = None ->
  exists c h' pc,
    ClusterTestCase_create_pool cls pool_class kwargs h = Some (c, h') /\
    pool_of_call c = Some pc /\
    pc_pool_class pc = ArgObj pool_class /\
    pc_kwargs pc !! "loop" = Some (ArgLoop (tcls_loop cls)) /\
    forall k, k <> "dsn" -> k <> "pool_class" -> k <> "loop" ->
      pc_kwargs pc !! k =
      match kwargs !! k, spec !! k with
      | Some v, _ => Some (ArgVal v)
      | None, Some v => Some (ArgVal v)
      | None, None => create_pool_defaults !! k
      end.
Proof.
  intros Hk Hc Hloop Hpc.
  destruct (connect_create_pool_calls cls pool_class kwargs h spec Hc)
    as (h' & _ & Hpool).
  { rewrite Hk. discriminate. }
  rewrite Hk in Hpool. unfold unpack in Hpool. rewrite Hloop in Hpool.
  eexists _, h', _. split; [exact Hpool|]. unfold pool_of_call. rewrite Hpc.
  split; [reflexivity|]. split_and!.
  - unfold create_pool, create_pool_call_args. simpl.
    rewrite lookup_insert_ne by done. by rewrite lookup_insert_eq.
  - rewrite create_pool_lookup by done. unfold create_pool_call_args.
    by rewrite lookup_insert_eq.
  - intros k Hd Hp Hl. rewrite create_pool_lookup by done.
    unfold create_pool_call_args. rewrite !lookup_insert_ne by done.
    rewrite lookup_fmap, lookup_union.
    destruct (kwargs !! k), (spec !! k); done.
Qed.

Lemma ClusterTestCase_create_pool_constructs_witness :
  exists c h' pc,
    ClusterTestCase_create_pool sample_class "Pool"
      {[ "min_size" := PyInt 2; "port" := PyInt 1 ]} sample_heap = Some (c, h') /\
    pool_of_call c = Some pc /\
    pc_kwargs pc !! "min_size" = Some (ArgVal (PyInt 2)) /\
    pc_kwargs pc !! "max_size" = Some (ArgVal (PyInt 10)) /\
    pc_kwargs pc !! "port" = Some (ArgVal (PyInt 1)) /\
    pc_kwargs pc !! "host" = Some (ArgVal (PyStr "/tmp/pg")).
Proof.
  destruct (ClusterTestCase_create_pool_constructs sample_class "Pool"
              {[ "min_size" := PyInt 2; "port" := PyInt 1 ]} sample_heap
              sample_spec eq_refl eq_refl)
    as (c & h' & pc & Hcall & Hpool & _ & _ & Hkw);
    [vm_compute; reflexivity | vm_compute; reflexivity |].
  exists c, h', pc. split_and!; [exact Hcall | exact Hpool | | | |];
    rewrite Hkw by done; vm_compute; reflexivity.
Defined.
